(** * OBD-II monitor server: the serial/UDP bridge of obd_monitor_server.c

    A shallow embedding of [send_ecu_query], [recv_ecu_reply] and of the
    body of the [while (1)] loop of [main], followed by the properties of
    the framing, classification and dispatch logic.

    Conventions.
    - An [unsigned char] is an [ascii]; a C string is the list of its bytes
      before the terminating NUL.
    - A C [int] is a [Z], with no wrap-around, and a string is not cut to
      the array that holds it: the model is that of the code for strings
      of at most INT_MAX bytes, and, in [main], for replies and log lines
      that fit their arrays of BUFFER_MAX_LEN bytes.  A property that
      tells what is written, logged or sent beyond these says so in its
      hypotheses ([fits], INT_MAX).
    - The outside world (serial port, log file, socket, console) is a
      record threaded through a state monad; every call into it is
      appended to a trace, oldest call first. *)

From Stdlib Require Import ZArith Bool Ascii String List Lia.
From Stdlib Require Import Numbers.DecimalString.
Import ListNotations.
Local Open Scope Z_scope.

(** ** Bytes and strings *)

Definition bytes := list ascii.

Definition code (c : ascii) : Z := Z.of_N (N_of_ascii c).

Definition NUL : ascii := "000"%char.
Definition LF : ascii := "010"%char.
Definition CR : ascii := "013"%char.

Definition lit (s : string) : bytes := list_ascii_of_string s.

Definition strlen (s : bytes) : Z := Z.of_nat (length s).

(** The largest [int]. *)
Definition INT_MAX : Z := 2147483647.

(** A string fits a [char] array of [size] bytes when there is room for
    its bytes and for the NUL that ends it. *)
Definition fits (size : Z) (s : bytes) : Prop := strlen s < size.

(** [%i] of printf. *)
Definition decimal (n : Z) : bytes := lit (NilEmpty.string_of_int (Z.to_int n)).

(** ** The world and its trace *)

Inductive event : Type :=
| SerialSend (port : Z) (buf : bytes)      (* RS232_SendBuf *)
| SerialFlushTX (port : Z)                 (* RS232_flushTX *)
| SerialPoll (port : Z) (got : bytes)      (* RS232_PollComport *)
| SerialFlushRX (port : Z)                 (* RS232_flushRX *)
| Stdout (text : bytes)                    (* printf *)
| Stderr (text : bytes)                    (* perror *)
| LogEntry (line : bytes)                  (* print_log_entry *)
| Sendto (sock : Z) (payload : bytes).     (* sendto *)

(** [rx] lists what the coming calls of RS232_PollComport read, one chunk
    per call (an empty chunk is a call that reads nothing); once the list
    is used up the interpreter stays silent.  [net_up] tells whether sendto
    succeeds. *)
Record world : Type := mkWorld {
  rx : list bytes;
  net_up : bool;
  trace : list event
}.

Definition record_event (e : event) (w : world) : world :=
  {| rx := rx w; net_up := net_up w; trace := trace w ++ [e] |}.

Definition with_rx (polls : list bytes) (w : world) : world :=
  {| rx := polls; net_up := net_up w; trace := trace w |}.

(** A call returns, never returns (the serial loop waits for ever), or
    ends the process ([exit]). *)
Inductive outcome (A : Type) : Type :=
| Returns (a : A) (w : world)
| Blocks (w : world)
| Exits (w : world).

Arguments Returns {A} a w.
Arguments Blocks {A} w.
Arguments Exits {A} w.

Definition world_of {A : Type} (o : outcome A) : world :=
  match o with
  | Returns _ w => w
  | Blocks w => w
  | Exits w => w
  end.

Definition M (A : Type) : Type := world -> outcome A.

Definition ret {A : Type} (a : A) : M A := fun w => Returns a w.

Definition bind {A B : Type} (c : M A) (k : A -> M B) : M B :=
  fun w =>
    match c w with
    | Returns a w' => k a w'
    | Blocks w' => Blocks w'
    | Exits w' => Exits w'
    end.

Notation "x <- c ;; k" := (bind c (fun x => k))
  (at level 61, c at next level, right associativity).
Notation "' pat <- c ;; k" := (bind c (fun x => match x with pat => k end))
  (at level 61, pat pattern, c at next level, right associativity).
Notation "c ;; k" := (bind c (fun _ => k))
  (at level 61, right associativity).

Definition emit (e : event) : M unit := fun w => Returns tt (record_event e w).

(** ** External collaborators *)

Definition printf (text : bytes) : M unit := emit (Stdout text).

Definition print_log_entry (line : bytes) : M unit := emit (LogEntry line).

Definition RS232_SendBuf (port : Z) (buf : bytes) (size : Z) : M Z :=
  emit (SerialSend port (firstn (Z.to_nat size) buf)) ;; ret size.

Definition RS232_flushTX (port : Z) : M unit := emit (SerialFlushTX port).

Definition RS232_flushRX (port : Z) : M unit := emit (SerialFlushRX port).

(** sendto returns the number of bytes sent, or -1. *)
Definition sendto (sock : Z) (buf : bytes) (len : Z) : M Z :=
  fun w =>
    Returns (if net_up w then len else -1)
            (record_event (Sendto sock (firstn (Z.to_nat len) buf)) w).

(** [perror(error_msg); exit(0);] *)
Definition fatal_error {A : Type} (error_msg : bytes) : M A :=
  fun w => Exits (record_event (Stderr error_msg) w).

(** ** send_ecu_query *)

Section Server.

(** Declared in obd_monitor.h: the size of [in_buf], [log_buf] and
    [ecu_msg] in [main]. *)
Variable BUFFER_MAX_LEN : Z.

(** [out_msg_len] is an [int] given the result of strlen: the two agree for
    a query of at most INT_MAX bytes. *)
Definition send_ecu_query (serial_port : Z) (ecu_query : bytes) : M Z :=
  let out_msg_len := strlen ecu_query in
  if (out_msg_len <? 1) || (BUFFER_MAX_LEN <? out_msg_len) then
    printf (lit "ERROR: Bad message length!" ++ [LF]) ;;
    ret 0
  else
    RS232_SendBuf serial_port ecu_query out_msg_len ;;
    printf (lit "TXD " ++ decimal out_msg_len ++ lit " bytes: "
            ++ ecu_query ++ [LF]) ;;
    RS232_flushTX serial_port ;;
    ret out_msg_len.

(** ** recv_ecu_reply *)

(** The locals of [recv_ecu_reply].  [ecu_reply] is the caller's array seen
    as the list of the stores made into it, oldest first: [(i, c)] stands
    for [ecu_reply[i] = c].  The function is handed a bare pointer and
    never learns the size of the array. *)
Record framer : Type := mkFramer {
  interpreter_ready_status : Z;
  msg_idx : Z;
  ecu_reply : list (Z * ascii)
}.

Definition framer_init : framer :=
  {| interpreter_ready_status := 0; msg_idx := 0; ecu_reply := [] |}.

(** [ecu_reply[msg_idx] = c; msg_idx++;] *)
Definition store_next (c : ascii) (st : framer) : framer :=
  {| interpreter_ready_status := interpreter_ready_status st;
     msg_idx := msg_idx st + 1;
     ecu_reply := ecu_reply st ++ [(msg_idx st, c)] |}.

Definition set_ready (st : framer) : framer :=
  {| interpreter_ready_status := 1;
     msg_idx := msg_idx st;
     ecu_reply := ecu_reply st |}.

(** The body of the [for] loop, for the byte [in_buf[buf_idx]]. *)
Definition for_body (c : ascii) (st : framer) : M framer :=
  if code c <? 32 then
    if Ascii.eqb c CR then ret (store_next "!"%char st)
    else ret st
  else if Ascii.eqb c ">"%char then
    let st := set_ready st in
    let st := store_next c st in
    printf (lit "RXD > Interpreter Ready" ++ [LF]) ;;
    ret st
  else
    ret (store_next c st).

(** [for (buf_idx = 0; buf_idx < in_msg_len; buf_idx++)] over the bytes
    read by one poll.  Nothing leaves the loop early. *)
Fixpoint for_loop (in_buf : bytes) (st : framer) : M framer :=
  match in_buf with
  | [] => ret st
  | c :: rest => st' <- for_body c st ;; for_loop rest st'
  end.

(** [while (interpreter_ready_status == 0)], entered with the status at 0.
    [polls] is [rx] of the world, passed apart for the recursion.  Each
    turn polls once, runs the [for] loop over what was read, and only then
    looks at the status again.  With nothing left to read the loop spins
    on empty polls for ever. *)
Fixpoint while_loop (serial_port : Z) (polls : list bytes) (st : framer)
    (w : world) : outcome framer :=
  match polls with
  | [] => Blocks (with_rx [] w)
  | in_buf :: later =>
      let in_msg_len := strlen in_buf in
      let w := record_event (SerialPoll serial_port in_buf) (with_rx later w) in
      match (if 0 <? in_msg_len then for_loop in_buf st else ret st) w with
      | Returns st' w' =>
          if interpreter_ready_status st' =? 0
          then while_loop serial_port later st' w'
          else Returns st' w'
      | Blocks w' => Blocks w'
      | Exits w' => Exits w'
      end
  end.

(** Returns [msg_idx] and leaves the stores in the caller's array. *)
Definition recv_ecu_reply (serial_port : Z) : M (Z * list (Z * ascii)) :=
  st <- (fun w => while_loop serial_port (rx w) framer_init w) ;;
  RS232_flushRX serial_port ;;
  ret (msg_idx st, ecu_reply st).

(** ** Reading the reply array back *)

(** The array is cleared by [memset] before the call, so a cell holds the
    last byte stored into it, or NUL. *)
Definition load (mem : list (Z * ascii)) (i : Z) : ascii :=
  match find (fun s => fst s =? i) (rev mem) with
  | Some (_, c) => c
  | None => NUL
  end.

(** The C string that starts at cell [i]. *)
Fixpoint c_string (mem : list (Z * ascii)) (fuel : nat) (i : Z) : bytes :=
  match fuel with
  | O => []
  | S fuel' =>
      if Ascii.eqb (load mem i) NUL then []
      else load mem i :: c_string mem fuel' (i + 1)
  end.

(** A string needs one store per byte, so the number of stores bounds its
    length. *)
Definition string_of (mem : list (Z * ascii)) : bytes :=
  c_string mem (length mem) 0.

(** ** Library and helper functions used by main *)

(** Modelled from the spec: [replacechar] is declared in obd_monitor.h and
    defined in a file that is not under src/.  The spec has it "replace
    every [!] delimiter with a literal space and return the whole reply
    unchanged otherwise"; the arguments are the ones [main] passes. *)
Definition replacechar (str : bytes) (orig rep : ascii) : bytes :=
  map (fun c => if Ascii.eqb c orig then rep else c) str.

Definition is_delim (delim : bytes) (c : ascii) : bool :=
  existsb (Ascii.eqb c) delim.

(** [s + strspn(s, delim)] *)
Fixpoint skip_delims (delim : bytes) (s : bytes) : bytes :=
  match s with
  | [] => []
  | c :: s' => if is_delim delim c then skip_delims delim s' else s
  end.

(** The bytes of [s] before the first delimiter, and [s] from that
    delimiter on. *)
Fixpoint span_token (delim : bytes) (s : bytes) : bytes * bytes :=
  match s with
  | [] => ([], [])
  | c :: s' =>
      if is_delim delim c then ([], s)
      else let (tok, rest) := span_token delim s' in (c :: tok, rest)
  end.

(** strtok of the C library.  [str] is [None] for a NULL first argument;
    [saved] is the string at the position strtok keeps between calls.  The
    result is the token (or [None] for NULL) and the new saved string. *)
Definition strtok (str : option bytes) (delim : bytes) (saved : bytes)
    : option bytes * bytes :=
  let s := match str with Some s => s | None => saved end in
  match skip_delims delim s with
  | [] => (None, [])
  | s1 =>
      let (tok, rest) := span_token delim s1 in
      (Some tok, match rest with [] => [] | _ :: after => after end)
  end.

(** ** main: one turn of the [while (1)] loop *)

(** The block guarded by [if (n > 0)] after [recv_ecu_reply]; [ecu_msg] is
    the string held in the reply array and [n] the value [recv_ecu_reply]
    returned, which is the length of that string.  The arrays [ecu_msg]
    and [log_buf] of [main] have BUFFER_MAX_LEN bytes: this is the block
    for a reply that fits the first and for lines, built by sprintf, that
    fit the second. *)
Definition process_reply (sock : Z) (n : Z) (ecu_msg : bytes) : M unit :=
  if Ascii.eqb (nth 0 ecu_msg NUL) "A"%char then
    let ecu_msg := replacechar ecu_msg "!"%char " "%char in
    print_log_entry (lit "RXD: " ++ ecu_msg) ;;
    n <- sendto sock ecu_msg n ;;
    if n <? 0 then fatal_error (lit "sendto") else ret tt
  else if Ascii.eqb (nth 0 ecu_msg NUL) "0"%char then
    let (_, saved) := strtok (Some ecu_msg) (lit "!") [] in
    let (pch, _) := strtok None (lit "!") saved in
    match pch with
    | Some pch =>
        print_log_entry (lit "RXD: " ++ pch) ;;
        n <- sendto sock pch (strlen pch) ;;
        if n <? 0 then fatal_error (lit "sendto") else ret tt
    | None => ret tt
    end
  else
    print_log_entry (lit "RXD Unknown ECU Message: " ++ ecu_msg).

(** The loop body from the call of [send_ecu_query] on, that is once
    [recvfrom] has put the client's datagram, the string [in_buf], into
    the cleared buffer.  The reply is read back from the stores as a
    string; the array of [main] holds that string when the stores stay
    below BUFFER_MAX_LEN. *)
Definition main_iteration (sock serial_port : Z) (in_buf : bytes) : M unit :=
  n <- send_ecu_query serial_port in_buf ;;
  (if 0 <? n then print_log_entry (lit "TXD: " ++ in_buf) else ret tt) ;;
  ' (n, ecu_msg) <- recv_ecu_reply serial_port ;;
  if 0 <? n then process_reply sock n (string_of ecu_msg) else ret tt.

(** ** Vocabulary of the specification *)

(** What one polled byte contributes to the framed reply: a control byte
    nothing, except carriage return which gives [!]; any other byte
    itself. *)
Definition frame_byte (c : ascii) : bytes :=
  if code c <? 32 then (if Ascii.eqb c CR then ["!"%char] else [])
  else [c].

(** The reply split at every [!], empty fields included. *)
Fixpoint fields (s : bytes) : list bytes :=
  match s with
  | [] => [[]]
  | c :: s' =>
      if Ascii.eqb c "!"%char then [] :: fields s'
      else match fields s' with
           | f :: fs => (c :: f) :: fs
           | [] => [[c]]
           end
  end.

(** The [!]-separated tokens: the fields that are not empty. *)
Definition tokens (s : bytes) : list bytes :=
  filter (fun f => negb (Nat.eqb (length f) 0)) (fields s).

(** The projections of a trace the claims speak of. *)
Definition is_serial (e : event) : bool :=
  match e with
  | SerialSend _ _ | SerialFlushTX _ | SerialPoll _ _ | SerialFlushRX _ => true
  | _ => false
  end.

Definition is_serial_send (e : event) : bool :=
  match e with SerialSend _ _ => true | _ => false end.

Definition is_log (e : event) : bool :=
  match e with LogEntry _ => true | _ => false end.

Definition is_sendto (e : event) : bool :=
  match e with Sendto _ _ => true | _ => false end.

(** ** What the framing loops compute *)

Definition has_prompt (chunk : bytes) : bool :=
  existsb (fun c => Ascii.eqb c ">"%char) chunk.

(** The chunks the [while] loop reads: all of them up to and including
    the first one that holds a [>]. *)
Fixpoint consumed (polls : list bytes) : list bytes :=
  match polls with
  | [] => []
  | chunk :: later =>
      if has_prompt chunk then [chunk] else chunk :: consumed later
  end.

Fixpoint unread (polls : list bytes) : list bytes :=
  match polls with
  | [] => []
  | chunk :: later => if has_prompt chunk then later else unread later
  end.

(** The cells [i], [i+1], ... paired with the bytes stored there. *)
Fixpoint number_from (i : Z) (out : bytes) : list (Z * ascii) :=
  match out with
  | [] => []
  | c :: out' => (i, c) :: number_from (i + 1) out'
  end.

(** The locals after the [for] loop has run over [input]. *)
Definition framed (input : bytes) (st : framer) : framer :=
  {| interpreter_ready_status :=
       if has_prompt input then 1 else interpreter_ready_status st;
     msg_idx := msg_idx st + strlen (flat_map frame_byte input);
     ecu_reply :=
       ecu_reply st ++ number_from (msg_idx st) (flat_map frame_byte input) |}.

Definition prompt_events (input : bytes) : list event :=
  flat_map (fun c => if Ascii.eqb c ">"%char
                     then [Stdout (lit "RXD > Interpreter Ready" ++ [LF])]
                     else []) input.

Definition poll_events (port : Z) (chunks : list bytes) : list event :=
  flat_map (fun chunk => SerialPoll port chunk :: prompt_events chunk) chunks.

Definition prompted (polls : list bytes) : bool := existsb has_prompt polls.

(** The bytes the framer stores for the polls it reads. *)
Definition reply_bytes (polls : list bytes) : bytes :=
  flat_map frame_byte (concat (consumed polls)).

Definition add_events (evs : list event) (w : world) : world :=
  {| rx := rx w; net_up := net_up w; trace := trace w ++ evs |}.

End Server.

(** A world with the given chunks waiting on the serial line, a working
    socket and nothing done yet. *)
Definition world_with (polls : list bytes) : world :=
  {| rx := polls; net_up := true; trace := [] |}.

(** ** The loop of main and the start-up check *)

(** The length test of [send_ecu_query], passed. *)
Definition accepted (BUFFER_MAX_LEN : Z) (q : bytes) : bool :=
  (1 <=? strlen q) && (strlen q <=? BUFFER_MAX_LEN).

(** [while (1)] of [main].  [requests] lists what the coming calls of
    recvfrom give: [Some in_buf] for a datagram, [in_buf] being the string
    it leaves in the cleared buffer, [None] for a failure (a negative
    result).  With no request left the process waits in recvfrom.  The
    loop has no way out but [exit]. *)
Fixpoint main_loop (BUFFER_MAX_LEN sock serial_port : Z)
    (requests : list (option bytes)) : M unit :=
  match requests with
  | [] => fun w => Blocks w
  | None :: _ => fatal_error (lit "recvfrom")
  | Some in_buf :: later =>
      main_iteration BUFFER_MAX_LEN sock serial_port in_buf ;;
      main_loop BUFFER_MAX_LEN sock serial_port later
  end.

(** The requests recvfrom hands over before its first failure. *)
Fixpoint served (requests : list (option bytes)) : list bytes :=
  match requests with
  | Some in_buf :: later => in_buf :: served later
  | _ => []
  end.

(** [memset(recv_msg, 0, 256)], as the stores it makes. *)
Definition memset_256 : list (Z * ascii) := number_from 0 (repeat NUL 256).

(** One exchange of [interface_check]: the query, the reply, the two
    lines printed and logged, and the [memset] that follows.  [recv_msg]
    is the local array, as the stores made into it so far; a cell no store
    has reached reads as NUL. *)
Definition check_step (BUFFER_MAX_LEN serial_port : Z) (label query : bytes)
    (recv_msg : list (Z * ascii)) : M (list (Z * ascii)) :=
  send_ecu_query BUFFER_MAX_LEN serial_port query ;;
  ' (_, stores) <- recv_ecu_reply serial_port ;;
  let recv_msg := recv_msg ++ stores in
  printf (label ++ lit ": " ++ string_of recv_msg ++ [LF]) ;;
  print_log_entry (string_of recv_msg) ;;
  ret (recv_msg ++ memset_256).

Definition interface_check (BUFFER_MAX_LEN serial_port : Z) : M unit :=
  let step := check_step BUFFER_MAX_LEN serial_port in
  recv_msg <- ret memset_256 ;;
  recv_msg <- step (lit "ATZ") (lit "ATZ" ++ [CR]) recv_msg ;;
  recv_msg <- step (lit "ATRV") (lit "ATRV" ++ [CR]) recv_msg ;;
  recv_msg <- step (lit "ATDP") (lit "ATDP" ++ [CR]) recv_msg ;;
  recv_msg <- step (lit "ATI") (lit "ATI" ++ [CR]) recv_msg ;;
  recv_msg <- step (lit "VIN") (lit "09 02" ++ [CR]) recv_msg ;;
  recv_msg <- step (lit "ECUName") (lit "09 0A" ++ [CR]) recv_msg ;;
  recv_msg <- step (lit "MIL") (lit "01 01" ++ [CR]) recv_msg ;;
  recv_msg <- step (lit "PID01") (lit "01 00" ++ [CR]) recv_msg ;;
  recv_msg <- step (lit "PID09") (lit "09 00" ++ [CR]) recv_msg ;;
  _ <- step (lit "DTC") (lit "03" ++ [CR]) recv_msg ;;
  ret tt.


(** The exchanges of [interface_check] as a list: the label printed and
    the query sent. *)
Definition check_plan : list (bytes * bytes) :=
  [(lit "ATZ", lit "ATZ" ++ [CR]); (lit "ATRV", lit "ATRV" ++ [CR]);
   (lit "ATDP", lit "ATDP" ++ [CR]); (lit "ATI", lit "ATI" ++ [CR]);
   (lit "VIN", lit "09 02" ++ [CR]); (lit "ECUName", lit "09 0A" ++ [CR]);
   (lit "MIL", lit "01 01" ++ [CR]); (lit "PID01", lit "01 00" ++ [CR]);
   (lit "PID09", lit "09 00" ++ [CR]); (lit "DTC", lit "03" ++ [CR])].

(** A run of exchanges, one after the other on the same array. *)
Fixpoint check_steps (BUFFER_MAX_LEN serial_port : Z)
    (plan : list (bytes * bytes)) (recv_msg : list (Z * ascii)) : M unit :=
  match plan with
  | [] => ret tt
  | (label, query) :: later =>
      recv_msg' <- check_step BUFFER_MAX_LEN serial_port label query recv_msg ;;
      check_steps BUFFER_MAX_LEN serial_port later recv_msg'
  end.

(** The replies the framer cuts from the polls, call after call: [acc]
    holds the bytes polled since the last call returned. *)
Fixpoint replies_from (acc : bytes) (polls : list bytes) : list bytes :=
  match polls with
  | [] => []
  | chunk :: later =>
      if has_prompt chunk
      then flat_map frame_byte (acc ++ chunk) :: replies_from [] later
      else replies_from (acc ++ chunk) later
  end.

Definition replies (polls : list bytes) : list bytes := replies_from [] polls.

(** The payloads handed to sendto, oldest first. *)
Definition sent_payloads (tr : list event) : list bytes :=
  flat_map (fun e => match e with Sendto _ payload => [payload] | _ => [] end) tr.

(** The lines handed to the log, oldest first. *)
Definition log_lines (tr : list event) : list bytes :=
  flat_map (fun e => match e with LogEntry line => [line] | _ => [] end) tr.

(** The number of polls that bring a [>]. *)
Definition prompts (polls : list bytes) : nat :=
  length (filter has_prompt polls).

(** A byte the framer and the classifier pass through untouched. *)
Definition plain (c : ascii) : Prop :=
  32 <= code c /\ c <> "!"%char /\ c <> ">"%char.

(** * Properties *)

(** Runs the monadic glue of a straight-line piece of code. *)
Ltac run :=
  unfold printf, print_log_entry, sendto, fatal_error,
    RS232_SendBuf, RS232_flushTX, RS232_flushRX;
  unfold bind, ret, emit;
  unfold record_event, add_events, with_rx, world_of;
  cbn [rx net_up trace].

Section Framing.

Lemma prompt_is_printable (c : ascii) :
  Ascii.eqb c ">"%char = true -> (code c <? 32) = false.
Proof.
  intros H. apply Ascii.eqb_eq in H. subst c. reflexivity.
Qed.

Lemma strlen_cons (c : ascii) (s : bytes) : strlen (c :: s) = 1 + strlen s.
Proof.
  unfold strlen. cbn [length]. lia.
Qed.

Lemma strlen_app (a b : bytes) : strlen (a ++ b) = strlen a + strlen b.
Proof.
  unfold strlen. rewrite length_app. lia.
Qed.

Lemma number_from_app (a b : bytes) (i : Z) :
  number_from i (a ++ b) = number_from i a ++ number_from (i + strlen a) b.
Proof.
  revert i. induction a as [|c a IH]; intros i; simpl.
  - now rewrite Z.add_0_r.
  - rewrite IH.
    replace (i + strlen (c :: a)) with (i + 1 + strlen a); [reflexivity|].
    rewrite strlen_cons. lia.
Qed.

Lemma framed_nil (st : framer) : framed [] st = st.
Proof.
  destruct st as [r i m]. unfold framed. simpl.
  f_equal; [unfold strlen; simpl; lia | apply app_nil_r].
Qed.

Lemma framed_cons (c : ascii) (input : bytes) (st : framer) :
  framed (c :: input) st = framed input (framed [c] st).
Proof.
  destruct st as [r i m]. unfold framed. simpl.
  rewrite app_nil_r, strlen_app, number_from_app, app_assoc.
  f_equal.
  - destruct (Ascii.eqb c ">"%char); simpl; [|reflexivity].
    destruct (has_prompt input); reflexivity.
  - lia.
Qed.

Lemma add_events_app (a b : list event) (w : world) :
  add_events b (add_events a w) = add_events (a ++ b) w.
Proof.
  unfold add_events. simpl. now rewrite app_assoc.
Qed.

Lemma add_events_nil (w : world) : add_events [] w = w.
Proof.
  destruct w. unfold add_events. simpl. now rewrite app_nil_r.
Qed.

(** One byte through the body of the [for] loop. *)
Lemma for_body_eq (c : ascii) (st : framer) (w : world) :
  for_body c st w = Returns (framed [c] st) (add_events (prompt_events [c]) w).
Proof.
  unfold for_body, framed, prompt_events, frame_byte, has_prompt. simpl.
  destruct st as [r i m]. simpl.
  destruct (code c <? 32) eqn:Hctl.
  - assert (Hp : Ascii.eqb c ">"%char = false).
    { destruct (Ascii.eqb c ">"%char) eqn:E; [|reflexivity].
      apply prompt_is_printable in E. congruence. }
    rewrite Hp. simpl.
    destruct (Ascii.eqb c CR); unfold ret, store_next; simpl;
      rewrite add_events_nil; f_equal; f_equal;
      try (unfold strlen; simpl; lia); try (now rewrite app_nil_r).
  - destruct (Ascii.eqb c ">"%char) eqn:Hp; simpl.
    + unfold bind, printf, emit, ret, store_next, set_ready, record_event,
        add_events. simpl. f_equal.
    + unfold ret, store_next. simpl. rewrite add_events_nil. reflexivity.
Qed.

(** The [for] loop runs over the whole chunk, whatever it holds. *)
Lemma for_loop_eq (in_buf : bytes) (st : framer) (w : world) :
  for_loop in_buf st w
  = Returns (framed in_buf st) (add_events (prompt_events in_buf) w).
Proof.
  revert st w. induction in_buf as [|c rest IH]; intros st w.
  - simpl. unfold ret. now rewrite framed_nil, add_events_nil.
  - simpl for_loop. unfold bind. rewrite for_body_eq, IH.
    rewrite <- framed_cons, add_events_app.
    unfold prompt_events. simpl flat_map. now rewrite app_nil_r.
Qed.

Lemma framed_app (a b : bytes) (st : framer) :
  framed (a ++ b) st = framed b (framed a st).
Proof.
  revert st. induction a as [|c a IH]; intros st.
  - now rewrite framed_nil.
  - rewrite <- app_comm_cons, framed_cons, IH, <- framed_cons. reflexivity.
Qed.

Lemma for_loop_guard (in_buf : bytes) (st : framer) :
  (if 0 <? strlen in_buf then for_loop in_buf st else ret st)
  = for_loop in_buf st.
Proof.
  destruct in_buf; reflexivity.
Qed.

Lemma consumed_unread (polls : list bytes) :
  polls = consumed polls ++ unread polls.
Proof.
  induction polls as [|chunk later IH]; simpl; [reflexivity|].
  destruct (has_prompt chunk); simpl; [reflexivity|]. now f_equal.
Qed.

(** The [while] loop, in closed form: it returns exactly when some chunk
    holds a [>], having read every chunk up to that one in full. *)
Lemma while_loop_eq (port : Z) (polls : list bytes) (st : framer) (w : world) :
  interpreter_ready_status st = 0 ->
  while_loop port polls st w
  = let w' := add_events (poll_events port (consumed polls))
                         (with_rx (unread polls) w) in
    if prompted polls
    then Returns (framed (concat (consumed polls)) st) w'
    else Blocks w'.
Proof.
  revert st w. induction polls as [|chunk later IH]; intros st w Hst.
  - simpl. now rewrite add_events_nil.
  - cbn [while_loop]. rewrite for_loop_guard, for_loop_eq.
    cbn [consumed unread prompted existsb].
    assert (Hr : interpreter_ready_status (framed chunk st)
                 = if has_prompt chunk then 1 else 0).
    { unfold framed. cbn [interpreter_ready_status]. now rewrite Hst. }
    rewrite Hr.
    destruct (has_prompt chunk) eqn:Hp.
    + cbn [Z.eqb orb concat poll_events flat_map]. rewrite !app_nil_r.
      destruct w as [r n t]. unfold add_events, record_event, with_rx.
      cbn [rx net_up trace]. now rewrite <- app_assoc.
    + cbn [Z.eqb orb]. rewrite IH by (now rewrite Hr).
      fold (prompted later).
      cbn [concat poll_events flat_map]. cbv zeta.
      rewrite <- framed_app.
      destruct w as [r n t]. unfold add_events, record_event, with_rx.
      cbn [rx net_up trace]. fold (poll_events port (consumed later)).
      rewrite <- !app_assoc. reflexivity.
Qed.

(** [recv_ecu_reply] in closed form. *)
Lemma recv_ecu_reply_eq (port : Z) (w : world) :
  recv_ecu_reply port w
  = if prompted (rx w)
    then Returns (strlen (reply_bytes (rx w)), number_from 0 (reply_bytes (rx w)))
           (add_events (poll_events port (consumed (rx w)) ++ [SerialFlushRX port])
                       (with_rx (unread (rx w)) w))
    else Blocks (add_events (poll_events port (consumed (rx w)))
                            (with_rx (unread (rx w)) w)).
Proof.
  unfold recv_ecu_reply, bind. rewrite while_loop_eq by reflexivity. cbv zeta.
  destruct (prompted (rx w)); [|reflexivity].
  unfold RS232_flushRX, emit, ret, framed, reply_bytes.
  cbn [msg_idx ecu_reply framer_init app Z.add].
  destruct w as [r n t]. unfold add_events, record_event, with_rx.
  cbn [rx net_up trace]. now rewrite <- app_assoc.
Qed.

Lemma frame_byte_printable (c : ascii) :
  Forall (fun b => 32 <= code b) (frame_byte c).
Proof.
  unfold frame_byte. destruct (code c <? 32) eqn:H.
  - destruct (Ascii.eqb c CR); constructor; [|constructor].
    now vm_compute.
  - constructor; [|constructor]. lia.
Qed.

Lemma reply_printable (input : bytes) :
  Forall (fun b => 32 <= code b) (flat_map frame_byte input).
Proof.
  induction input as [|c input IH]; simpl; [constructor|].
  apply Forall_app. split; [apply frame_byte_printable | exact IH].
Qed.

End Framing.

Section ReplyArray.

Lemma length_number_from (out : bytes) (i : Z) :
  length (number_from i out) = length out.
Proof.
  revert i. induction out as [|c out IH]; intros i; simpl; [reflexivity|].
  now rewrite IH.
Qed.

Lemma load_snoc (mem : list (Z * ascii)) (k : Z) (c : ascii) (j : Z) :
  load (mem ++ [(k, c)]) j = if k =? j then c else load mem j.
Proof.
  unfold load. rewrite rev_unit. simpl. now destruct (k =? j).
Qed.

Lemma load_number_from (out : bytes) (i j : Z) :
  load (number_from i out) j
  = if (i <=? j) && (j <? i + strlen out)
    then nth (Z.to_nat (j - i)) out NUL
    else NUL.
Proof.
  induction out as [|c out IH] using rev_ind.
  - cbn [number_from]. unfold load. cbn [rev find].
    destruct ((i <=? j) && (j <? i + strlen [])); [|reflexivity].
    now destruct (Z.to_nat (j - i)).
  - rewrite number_from_app. cbn [number_from]. rewrite load_snoc, IH.
    rewrite strlen_app, strlen_cons. change (strlen []) with 0.
    assert (Hlen : strlen out = Z.of_nat (length out)) by reflexivity.
    destruct (Z.eqb_spec (i + strlen out) j) as [Hk|Hk];
      destruct (Z.leb_spec i j) as [Hlo|Hlo];
      destruct (Z.ltb_spec j (i + strlen out)) as [Hhi|Hhi];
      destruct (Z.ltb_spec j (i + (strlen out + (1 + 0)))) as [Hhi'|Hhi'];
      cbn [andb]; try lia; try reflexivity.
    + replace (Z.to_nat (j - i)) with (length out) by lia.
      now rewrite nth_middle.
    + rewrite app_nth1 by lia. reflexivity.
Qed.

Lemma printable_not_NUL (c : ascii) : 32 <= code c -> Ascii.eqb c NUL = false.
Proof.
  intros H. destruct (Ascii.eqb c NUL) eqn:E; [|reflexivity].
  apply Ascii.eqb_eq in E. subst c. vm_compute in H. now contradiction H.
Qed.

Lemma skipn_nth (k : nat) (l : bytes) :
  (k < length l)%nat -> skipn k l = nth k l NUL :: skipn (S k) l.
Proof.
  revert k. induction l as [|c l IH]; intros k Hk; simpl in Hk; [lia|].
  destruct k as [|k]; [reflexivity|].
  simpl. apply IH. lia.
Qed.

Lemma c_string_number_from (out : bytes) :
  Forall (fun b => 32 <= code b) out ->
  forall (fuel k : nat),
    (k <= length out)%nat -> (length out - k <= fuel)%nat ->
    c_string (number_from 0 out) fuel (Z.of_nat k) = skipn k out.
Proof.
  intros Hout. induction fuel as [|fuel IH]; intros k Hk Hfuel.
  - simpl. replace k with (length out) by lia. now rewrite skipn_all.
  - cbn [c_string]. rewrite load_number_from. unfold strlen.
    destruct (Nat.eq_dec k (length out)) as [->|Hne].
    + replace ((0 <=? Z.of_nat (length out))
               && (Z.of_nat (length out) <? 0 + Z.of_nat (length out)))
        with false
        by (symmetry; apply andb_false_iff; right; apply Z.ltb_ge; lia).
      cbn. now rewrite skipn_all.
    + replace ((0 <=? Z.of_nat k) && (Z.of_nat k <? 0 + Z.of_nat (length out)))
        with true by (symmetry; apply andb_true_intro; split; lia).
      replace (Z.to_nat (Z.of_nat k - 0)) with k by lia.
      rewrite printable_not_NUL.
      * replace (Z.of_nat k + 1) with (Z.of_nat (S k)) by lia.
        rewrite IH by lia. symmetry. apply skipn_nth. lia.
      * rewrite Forall_forall in Hout. apply Hout, nth_In. lia.
Qed.

(** Read back as a string, the array holds the bytes the framer stored,
    in the order it stored them. *)
Lemma string_of_number_from (out : bytes) :
  Forall (fun b => 32 <= code b) out ->
  string_of (number_from 0 out) = out.
Proof.
  intros Hout. unfold string_of. rewrite length_number_from.
  apply (c_string_number_from out Hout (length out) 0%nat); lia.
Qed.

Lemma map_snd_number_from (out : bytes) (i : Z) :
  map snd (number_from i out) = out.
Proof.
  revert i. induction out as [|c out IH]; intros i; simpl; [reflexivity|].
  now rewrite IH.
Qed.

End ReplyArray.

Section Tokens.

Lemma is_delim_bang (c : ascii) : is_delim (lit "!") c = Ascii.eqb c "!"%char.
Proof.
  unfold is_delim, lit. simpl. apply orb_false_r.
Qed.

Lemma tokens_delim (s : bytes) : tokens ("!"%char :: s) = tokens s.
Proof. reflexivity. Qed.

(** Up to the first [!]: the token [span_token] cuts is the first field,
    and what strtok saves holds the tokens of the other fields. *)
Lemma span_token_fields (s : bytes) :
  exists f fs,
    fields s = f :: fs
    /\ fst (span_token (lit "!") s) = f
    /\ tokens (match snd (span_token (lit "!") s) with
               | [] => []
               | _ :: after => after
               end)
       = filter (fun f => negb (Nat.eqb (length f) 0)) fs.
Proof.
  induction s as [|c s IH].
  - exists [], []. repeat split.
  - cbn [span_token fields]. rewrite is_delim_bang.
    destruct (Ascii.eqb c "!"%char) eqn:Hc.
    + exists [], (fields s). repeat split.
    + destruct IH as (f & fs & Hf & Htok & Hrest).
      exists (c :: f), fs. rewrite Hf.
      destruct (span_token (lit "!") s) as [tok rest].
      cbn [fst snd] in *. subst tok. repeat split. exact Hrest.
Qed.

(** A first call of strtok returns the first token and saves a string
    that holds the remaining ones. *)
Lemma strtok_first (s saved0 : bytes) :
  fst (strtok (Some s) (lit "!") saved0) = nth_error (tokens s) 0
  /\ tokens (snd (strtok (Some s) (lit "!") saved0)) = tl (tokens s).
Proof.
  induction s as [|c s IH].
  - split; reflexivity.
  - destruct (Ascii.eqb c "!"%char) eqn:Hc.
    + apply Ascii.eqb_eq in Hc. subst c. rewrite tokens_delim. exact IH.
    + unfold strtok. cbn [skip_delims]. rewrite is_delim_bang, Hc.
      cbn [span_token]. rewrite is_delim_bang, Hc.
      destruct (span_token_fields s) as (f & fs & Hf & Htok & Hrest).
      unfold tokens at 1 3. cbn [fields]. rewrite Hc, Hf.
      destruct (span_token (lit "!") s) as [tok rest].
      cbn [fst snd] in *. subst tok. cbn [filter length Nat.eqb negb tl nth_error].
      split; [reflexivity | exact Hrest].
Qed.

(** A call with NULL goes on from the saved string. *)
Lemma strtok_next (saved : bytes) :
  strtok None (lit "!") saved = strtok (Some saved) (lit "!") [].
Proof. reflexivity. Qed.

(** The two calls [main] makes leave [pch] at the second token. *)
Lemma second_strtok (s : bytes) :
  fst (strtok None (lit "!") (snd (strtok (Some s) (lit "!") [])))
  = nth_error (tokens s) 1.
Proof.
  rewrite strtok_next.
  destruct (strtok_first s []) as [_ Hsaved].
  destruct (strtok_first (snd (strtok (Some s) (lit "!") [])) []) as [Htok _].
  rewrite Htok, Hsaved. now destruct (tokens s).
Qed.

End Tokens.

(** ** Traces *)

Section Traces.

Lemma firstn_strlen (s : bytes) : firstn (Z.to_nat (strlen s)) s = s.
Proof.
  unfold strlen. rewrite Nat2Z.id. apply firstn_all.
Qed.

Lemma prompts_are_not_sends (chunk : bytes) :
  filter is_serial_send (prompt_events chunk) = [].
Proof.
  unfold prompt_events.
  induction chunk as [|c chunk IH]; [reflexivity|].
  cbn [flat_map]. rewrite filter_app, IH, app_nil_r.
  now destruct (Ascii.eqb c ">"%char).
Qed.

Lemma polls_are_not_sends (port : Z) (chunks : list bytes) :
  filter is_serial_send (poll_events port chunks) = [].
Proof.
  unfold poll_events.
  induction chunks as [|chunk later IH]; [reflexivity|].
  cbn [flat_map]. rewrite filter_app, IH, app_nil_r.
  cbn [filter is_serial_send]. apply prompts_are_not_sends.
Qed.

(** A query of acceptable length: one write, the console line, the
    flush, and the length comes back. *)
Lemma send_ecu_query_accepts (BUFFER_MAX_LEN port : Z) (q : bytes) (w : world) :
  1 <= strlen q <= BUFFER_MAX_LEN ->
  send_ecu_query BUFFER_MAX_LEN port q w
  = Returns (strlen q)
      (add_events [SerialSend port q;
                   Stdout (lit "TXD " ++ decimal (strlen q) ++ lit " bytes: "
                           ++ q ++ [LF]);
                   SerialFlushTX port] w).
Proof.
  intros [Hlo Hhi]. unfold send_ecu_query. cbv zeta.
  destruct (Z.ltb_spec (strlen q) 1) as [H|_]; [lia|].
  destruct (Z.ltb_spec BUFFER_MAX_LEN (strlen q)) as [H|_]; [lia|].
  cbn [orb]. run. rewrite firstn_strlen, <- !app_assoc. reflexivity.
Qed.

(** Whatever the reply, handling it touches the log and the socket only. *)
Lemma process_reply_events (sock n : Z) (msg : bytes) (w : world) :
  exists evs,
    trace (world_of (process_reply sock n msg w)) = trace w ++ evs
    /\ filter is_serial evs = [].
Proof.
  unfold process_reply.
  destruct (Ascii.eqb (nth 0 msg NUL) "A"%char).
  - run. destruct (net_up w), (n <? 0); cbn [Z.ltb Z.compare world_of trace];
      rewrite <- ?app_assoc; eexists; split; reflexivity.
  - destruct (Ascii.eqb (nth 0 msg NUL) "0"%char).
    + destruct (strtok (Some msg) (lit "!") []) as [tok saved].
      destruct (strtok None (lit "!") saved) as [[pch|] saved'].
      * run. destruct (net_up w), (strlen pch <? 0);
          cbn [Z.ltb Z.compare world_of trace];
          rewrite <- ?app_assoc; eexists; split; reflexivity.
      * exists []. run. now rewrite app_nil_r.
    + run. eexists; split; reflexivity.
Qed.

Lemma serial_sends_are_serial (evs : list event) :
  filter is_serial evs = [] -> filter is_serial_send evs = [].
Proof.
  induction evs as [|e evs IH]; [reflexivity|].
  cbn [filter]. destruct e; cbn [is_serial is_serial_send]; try discriminate;
    exact IH.
Qed.

End Traces.

(** ** The framer *)

Section FramerClaims.

Lemma recv_returns_iff (port : Z) (w : world) :
  (exists r w', recv_ecu_reply port w = Returns r w') <-> prompted (rx w) = true.
Proof.
  rewrite recv_ecu_reply_eq. destruct (prompted (rx w)); split.
  - reflexivity.
  - intros _. eauto.
  - intros (r & w' & H). discriminate H.
  - discriminate.
Qed.

(** What a returned call leaves behind. *)
Lemma recv_returns_inv (port : Z) (w : world) (n : Z) (mem : list (Z * ascii))
    (w' : world) :
  recv_ecu_reply port w = Returns (n, mem) w' ->
  prompted (rx w) = true
  /\ n = strlen (reply_bytes (rx w))
  /\ mem = number_from 0 (reply_bytes (rx w))
  /\ rx w' = unread (rx w).
Proof.
  rewrite recv_ecu_reply_eq. destruct (prompted (rx w)); [|discriminate].
  intros H. injection H as Hn Hmem Hw. subst. repeat split.
Qed.

Lemma prompt_in_frame (chunk : bytes) :
  has_prompt chunk = true -> In ">"%char (flat_map frame_byte chunk).
Proof.
  unfold has_prompt. rewrite existsb_exists. intros (c & Hin & Hc).
  apply Ascii.eqb_eq in Hc. subst c.
  apply in_flat_map. exists ">"%char. split; [exact Hin | now left].
Qed.

Lemma prompt_in_reply (polls : list bytes) :
  prompted polls = true -> In ">"%char (reply_bytes polls).
Proof.
  unfold reply_bytes.
  induction polls as [|chunk later IH]; cbn [prompted existsb consumed];
    [discriminate|].
  destruct (has_prompt chunk) eqn:Hp; cbn [orb concat]; intros H;
    rewrite flat_map_app; apply in_or_app.
  - left. now apply prompt_in_frame.
  - right. now apply IH.
Qed.

Lemma cells_of_number_from (out : bytes) (k : nat) :
  map fst (number_from (Z.of_nat k) out) = map Z.of_nat (seq k (length out)).
Proof.
  revert k. induction out as [|c out IH]; intros k; [reflexivity|].
  cbn [number_from map length seq fst]. f_equal.
  replace (Z.of_nat k + 1) with (Z.of_nat (S k)) by lia. apply IH.
Qed.

(** C9: the framed reply holds no byte below 32.  The reply is the bytes
    polled, in order, each control byte dropped, each carriage return
    turned into [!] and every other byte kept. *)
Theorem C9_framed_reply_has_no_control_byte (port : Z) (w : world) (n : Z)
    (mem : list (Z * ascii)) (w' : world) :
  recv_ecu_reply port w = Returns (n, mem) w' ->
  exists polled,
    rx w = polled ++ rx w'
    /\ string_of mem = flat_map frame_byte (concat polled)
    /\ map snd mem = string_of mem
    /\ Forall (fun c => 32 <= code c) (string_of mem).
Proof.
  intros H. apply recv_returns_inv in H. destruct H as (_ & _ & -> & ->).
  exists (consumed (rx w)).
  assert (Hs : string_of (number_from 0 (reply_bytes (rx w)))
               = reply_bytes (rx w))
    by (apply string_of_number_from, reply_printable).
  rewrite Hs, map_snd_number_from. repeat split.
  - apply consumed_unread.
  - apply reply_printable.
Qed.

Lemma frame_repeat_A (k : nat) :
  flat_map frame_byte (repeat "A"%char k) = repeat "A"%char k.
Proof.
  induction k as [|k IH]; [reflexivity|].
  cbn [repeat flat_map]. rewrite IH. reflexivity.
Qed.

(** C1: the bytes that follow [>] in the chunk that brings it are framed
    like any other.  Whatever [pre] and [post], a chunk [pre ++ ">" ++ post]
    is stored in full, [post] included, and counted in the value returned;
    only the later chunks stay unread.  Polling ["OK\r>AB"] in one chunk
    gives the reply ["OK!>AB"] and the return value 6. *)
Theorem C1_bytes_after_prompt_are_framed :
  (forall (port : Z) (pre post : bytes) (later : list bytes) (net : bool)
          (tr : list event),
     let reply := flat_map frame_byte pre ++ ">"%char :: flat_map frame_byte post in
     recv_ecu_reply port
       {| rx := (pre ++ ">"%char :: post) :: later; net_up := net; trace := tr |}
     = Returns (strlen reply, number_from 0 reply)
         {| rx := later; net_up := net;
            trace := tr ++ SerialPoll port (pre ++ ">"%char :: post)
                        :: prompt_events (pre ++ ">"%char :: post)
                        ++ [SerialFlushRX port] |})
  /\ recv_ecu_reply 0 (world_with [lit "OK" ++ [CR] ++ lit ">AB"; lit "CD"])
     = Returns (6, number_from 0 (lit "OK!>AB"))
         {| rx := [lit "CD"]; net_up := true;
            trace := [SerialPoll 0 (lit "OK" ++ [CR] ++ lit ">AB");
                      Stdout (lit "RXD > Interpreter Ready" ++ [LF]);
                      SerialFlushRX 0] |}.
Proof.
  split; [|reflexivity].
  intros port pre post later net tr reply.
  assert (Hp : has_prompt (pre ++ ">"%char :: post) = true).
  { unfold has_prompt. rewrite existsb_app. apply orb_true_iff. now right. }
  rewrite recv_ecu_reply_eq. unfold reply_bytes.
  cbn [rx prompted existsb consumed unread]. rewrite Hp.
  cbn [orb concat poll_events flat_map]. rewrite !app_nil_r, flat_map_app.
  unfold add_events, with_rx. cbn [rx net_up trace flat_map app].
  change (frame_byte ">"%char) with [">"%char]. cbn [app].
  reflexivity.
Qed.

(** C3: whatever the capacity [cap] of the reply array, [cap] printable
    bytes followed by [>] make the framer store the [>] in cell [cap],
    one past the end of the array, and return [cap + 1]. *)
Theorem C3_store_beyond_capacity (cap : nat) (port : Z) (net : bool)
    (tr : list event) :
  exists mem w',
    recv_ecu_reply port
      {| rx := [repeat "A"%char cap ++ [">"%char]]; net_up := net; trace := tr |}
    = Returns (Z.of_nat cap + 1, mem) w'
    /\ In (Z.of_nat cap, ">"%char) mem.
Proof.
  rewrite recv_ecu_reply_eq. cbn [rx prompted existsb consumed].
  assert (Hp : has_prompt (repeat "A"%char cap ++ [">"%char]) = true).
  { unfold has_prompt. rewrite existsb_app. apply orb_true_iff. now right. }
  rewrite Hp. cbn [orb]. unfold reply_bytes. cbn [consumed]. rewrite Hp.
  cbn [concat]. rewrite app_nil_r, flat_map_app, frame_repeat_A.
  change (flat_map frame_byte [">"%char]) with [">"%char].
  rewrite number_from_app, strlen_app.
  assert (Hlen : strlen (repeat "A"%char cap) = Z.of_nat cap)
    by (unfold strlen; now rewrite repeat_length).
  rewrite Hlen. do 2 eexists. split; [reflexivity|].
  apply in_or_app. right. now left.
Qed.

End FramerClaims.

(** ** The dispatcher *)

Section DispatchClaims.

Variable BUFFER_MAX_LEN : Z.

(** One turn of the loop for a query [send_ecu_query] accepts. *)
Lemma main_iteration_accepted (sock port : Z) (q : bytes) (w : world) :
  1 <= strlen q <= BUFFER_MAX_LEN ->
  main_iteration BUFFER_MAX_LEN sock port q w
  = let sent := [SerialSend port q;
                 Stdout (lit "TXD " ++ decimal (strlen q) ++ lit " bytes: "
                         ++ q ++ [LF]);
                 SerialFlushTX port;
                 LogEntry (lit "TXD: " ++ q)] in
    if prompted (rx w)
    then process_reply sock (strlen (reply_bytes (rx w))) (reply_bytes (rx w))
           (add_events (sent ++ poll_events port (consumed (rx w))
                             ++ [SerialFlushRX port])
                       (with_rx (unread (rx w)) w))
    else Blocks (add_events (sent ++ poll_events port (consumed (rx w)))
                            (with_rx (unread (rx w)) w)).
Proof.
  intros Hlen. unfold main_iteration.
  unfold bind at 1. rewrite send_ecu_query_accepts by exact Hlen.
  destruct (Z.ltb_spec 0 (strlen q)) as [_|H]; [|lia].
  unfold bind at 1. unfold print_log_entry, emit.
  unfold bind at 1. rewrite recv_ecu_reply_eq.
  destruct w as [r n t]. unfold add_events, record_event, with_rx.
  cbn [rx net_up trace]. cbv zeta.
  destruct (prompted r) eqn:Hp.
  - rewrite string_of_number_from by apply reply_printable.
    apply prompt_in_reply in Hp.
    destruct (Z.ltb_spec 0 (strlen (reply_bytes r))) as [_|H].
    + rewrite <- !app_assoc. reflexivity.
    + destruct (reply_bytes r); [contradiction Hp|].
      rewrite strlen_cons in H. unfold strlen in H. lia.
  - rewrite <- !app_assoc. reflexivity.
Qed.

(** C5 (amended): a query of length 0, or of a length above
    BUFFER_MAX_LEN that an [int] holds, makes [send_ecu_query] return 0
    with no call to the serial port.  The error line is printed on the
    console; the serial port, the log, the socket and the pending input
    are as before. *)
Theorem C5_bad_length_is_rejected (port : Z) (q : bytes) (w : world) :
  strlen q = 0 \/ BUFFER_MAX_LEN < strlen q ->
  strlen q <= INT_MAX ->
  let after := world_of (send_ecu_query BUFFER_MAX_LEN port q w) in
  send_ecu_query BUFFER_MAX_LEN port q w
  = Returns 0 (record_event (Stdout (lit "ERROR: Bad message length!" ++ [LF])) w)
  /\ filter is_serial (trace after) = filter is_serial (trace w)
  /\ filter is_log (trace after) = filter is_log (trace w)
  /\ filter is_sendto (trace after) = filter is_sendto (trace w)
  /\ rx after = rx w
  /\ net_up after = net_up w.
Proof.
  intros Hlen _ after.
  assert (Hrun : send_ecu_query BUFFER_MAX_LEN port q w
    = Returns 0 (record_event
                   (Stdout (lit "ERROR: Bad message length!" ++ [LF])) w)).
  { unfold send_ecu_query. cbv zeta.
    destruct (Z.ltb_spec (strlen q) 1) as [_|H1]; [reflexivity|].
    destruct (Z.ltb_spec BUFFER_MAX_LEN (strlen q)) as [_|H2]; [reflexivity|].
    lia. }
  split; [exact Hrun|].
  subst after. rewrite Hrun. cbn [world_of record_event trace rx net_up].
  rewrite !filter_app. cbn [filter is_serial is_log is_sendto].
  rewrite !app_nil_r. repeat split.
Qed.

(** C6: for a query of 1 to BUFFER_MAX_LEN bytes, the first thing one
    turn of the loop does is to write the query, whole, to the serial
    port; everything else the turn does, every poll included, comes after
    it, and no other write is among it. *)
Theorem C6_one_write_before_any_poll (sock port : Z) (q : bytes) (w : world) :
  1 <= strlen q <= BUFFER_MAX_LEN ->
  exists later,
    trace (world_of (main_iteration BUFFER_MAX_LEN sock port q w))
    = trace w ++ SerialSend port q :: later
    /\ filter is_serial_send later = [].
Proof.
  intros Hlen. rewrite main_iteration_accepted by exact Hlen. cbv zeta.
  destruct (prompted (rx w)).
  - match goal with
    | |- context [process_reply ?s ?n ?m ?w1] =>
        destruct (process_reply_events s n m w1) as (evs & Htrace & Hserial)
    end.
    rewrite Htrace. unfold add_events, with_rx. cbn [trace app].
    rewrite <- !app_assoc. cbn [app]. eexists. split; [reflexivity|].
    cbn [filter is_serial_send]. rewrite !filter_app, polls_are_not_sends.
    cbn [filter is_serial_send app]. now apply serial_sends_are_serial.
  - unfold add_events, with_rx, world_of. cbn [trace app].
    eexists. split; [reflexivity|].
    cbn [filter is_serial_send]. apply polls_are_not_sends.
Qed.

(** One turn of the loop for a query [send_ecu_query] turns down: but
    for the write, the flush and the TXD log line, it is the turn of an
    accepted query. *)
Lemma main_iteration_rejected (sock port : Z) (q : bytes) (w : world) :
  strlen q = 0 \/ BUFFER_MAX_LEN < strlen q ->
  main_iteration BUFFER_MAX_LEN sock port q w
  = let said := [Stdout (lit "ERROR: Bad message length!" ++ [LF])] in
    if prompted (rx w)
    then process_reply sock (strlen (reply_bytes (rx w))) (reply_bytes (rx w))
           (add_events (said ++ poll_events port (consumed (rx w))
                             ++ [SerialFlushRX port])
                       (with_rx (unread (rx w)) w))
    else Blocks (add_events (said ++ poll_events port (consumed (rx w)))
                            (with_rx (unread (rx w)) w)).
Proof.
  intros Hlen. unfold main_iteration.
  unfold bind at 1. unfold send_ecu_query. cbv zeta.
  replace ((strlen q <? 1) || (BUFFER_MAX_LEN <? strlen q)) with true.
  2:{ symmetry. apply orb_true_iff.
      destruct Hlen as [H|H]; [left|right]; apply Z.ltb_lt; lia. }
  unfold printf, emit. unfold bind at 1. unfold ret at 1. cbn [Z.ltb Z.compare].
  unfold bind at 1. unfold ret at 1.
  unfold bind at 1. rewrite recv_ecu_reply_eq.
  destruct w as [r n t]. unfold add_events, record_event, with_rx.
  cbn [rx net_up trace]. cbv zeta.
  destruct (prompted r) eqn:Hp.
  - rewrite string_of_number_from by apply reply_printable.
    apply prompt_in_reply in Hp.
    destruct (Z.ltb_spec 0 (strlen (reply_bytes r))) as [_|H].
    + rewrite <- !app_assoc. reflexivity.
    + destruct (reply_bytes r); [contradiction Hp|].
      rewrite strlen_cons in H. unfold strlen in H. lia.
  - rewrite <- !app_assoc. reflexivity.
Qed.

(** C2: an empty query is turned down by [send_ecu_query], yet the turn
    goes on to [recv_ecu_reply]: it polls the serial port for every chunk
    up to the one that brings a [>].  With a silent interpreter it polls
    and never comes back; with a reply waiting on the line it polls,
    flushes the receive buffer and sends the client a datagram. *)
Theorem C2_rejected_query_still_polls :
  (forall (sock port : Z) (w : world),
     exists later,
       trace (world_of (main_iteration BUFFER_MAX_LEN sock port [] w))
       = trace w ++ Stdout (lit "ERROR: Bad message length!" ++ [LF])
                 :: poll_events port (consumed (rx w)) ++ later)
  /\ main_iteration BUFFER_MAX_LEN 3 0 [] (world_with [[]; []])
     = Blocks
         {| rx := []; net_up := true;
            trace := [Stdout (lit "ERROR: Bad message length!" ++ [LF]);
                      SerialPoll 0 []; SerialPoll 0 []] |}
  /\ main_iteration BUFFER_MAX_LEN 3 0 []
       (world_with [lit "ATI" ++ [CR] ++ lit "ELM327 v1.5" ++ [CR; CR] ++ lit ">"])
     = Returns tt
         {| rx := []; net_up := true;
            trace := [Stdout (lit "ERROR: Bad message length!" ++ [LF]);
                      SerialPoll 0 (lit "ATI" ++ [CR] ++ lit "ELM327 v1.5"
                                    ++ [CR; CR] ++ lit ">");
                      Stdout (lit "RXD > Interpreter Ready" ++ [LF]);
                      SerialFlushRX 0;
                      LogEntry (lit "RXD: ATI ELM327 v1.5  >");
                      Sendto 3 (lit "ATI ELM327 v1.5  >")] |}.
Proof.
  split; [|split; reflexivity].
  intros sock port w.
  rewrite main_iteration_rejected by (left; reflexivity). cbv zeta.
  destruct (prompted (rx w)).
  - match goal with
    | |- context [process_reply ?s ?n ?m ?w1] =>
        destruct (process_reply_events s n m w1) as (evs & Htrace & _)
    end.
    rewrite Htrace. unfold add_events, with_rx. cbn [trace app].
    rewrite <- !app_assoc. cbn [app]. rewrite <- !app_assoc.
    eexists. reflexivity.
  - unfold add_events, with_rx, world_of. cbn [trace app].
    exists []. now rewrite app_nil_r.
Qed.

End DispatchClaims.

(** ** The classifier *)

Section ClassifierClaims.

Lemma nth_replacechar (s : bytes) (i : nat) :
  nth i (replacechar s "!"%char " "%char) NUL
  = if Ascii.eqb (nth i s NUL) "!"%char then " "%char else nth i s NUL.
Proof.
  unfold replacechar.
  change NUL with ((fun c => if Ascii.eqb c "!"%char then " "%char else c) NUL)
    at 1.
  apply map_nth.
Qed.

(** The reply to an AT command: logged and sent with the delimiters
    replaced; a failed [sendto] ends the process. *)
Lemma process_reply_AT (sock : Z) (r : bytes) (w : world) :
  nth 0 r NUL = "A"%char ->
  trace (world_of (process_reply sock (strlen r) r w))
  = trace w
    ++ LogEntry (lit "RXD: " ++ replacechar r "!"%char " "%char)
    :: Sendto sock (replacechar r "!"%char " "%char)
    :: (if net_up w then [] else [Stderr (lit "sendto")]).
Proof.
  intros Hhd. unfold process_reply. rewrite Hhd. cbn [Ascii.eqb Bool.eqb].
  assert (Hcut : firstn (Z.to_nat (strlen r)) (replacechar r "!"%char " "%char)
                 = replacechar r "!"%char " "%char).
  { replace (strlen r) with (strlen (replacechar r "!"%char " "%char))
      by (unfold strlen, replacechar; now rewrite length_map).
    apply firstn_strlen. }
  run. rewrite Hcut. destruct (net_up w).
  - destruct (Z.ltb_spec (strlen r) 0) as [H|_]; [unfold strlen in H; lia|].
    cbn [world_of trace]. now rewrite <- app_assoc.
  - cbn [Z.ltb Z.compare world_of trace]. now rewrite <- !app_assoc.
Qed.

(** The reply to an OBD request, by its second token. *)
Lemma process_reply_OBD (sock n : Z) (r : bytes) (w : world) :
  nth 0 r NUL = "0"%char ->
  process_reply sock n r w
  = match nth_error (tokens r) 1 with
    | Some pch =>
        (print_log_entry (lit "RXD: " ++ pch) ;;
         n <- sendto sock pch (strlen pch) ;;
         if n <? 0 then fatal_error (lit "sendto") else ret tt) w
    | None => Returns tt w
    end.
Proof.
  intros Hhd. unfold process_reply. rewrite Hhd. cbn [Ascii.eqb Bool.eqb].
  rewrite <- second_strtok.
  destruct (strtok (Some r) (lit "!") []) as [tok saved]. cbn [snd].
  destruct (strtok None (lit "!") saved) as [[pch|] saved']; reflexivity.
Qed.

(** C7 (as amended): a reply that starts with [A] and whose log line
    fits [log_buf] (the reply then fits [ecu_msg]) is sent whole, as long
    as it came and with a space wherever it had a [!], the last bytes
    included: trailing delimiters go out as trailing spaces.  The reply
    ["ATRV!12.3V!!>"], framed from ["ATRV\r12.3V\r\r>"], goes out as
    ["ATRV 12.3V  >"]; the string ["ATRV!12.3V!"], which the framer never
    returns, would go out as ["ATRV 12.3V "]. *)
Theorem C7_AT_reply_sent_with_spaces (BUFFER_MAX_LEN sock : Z) (r : bytes)
    (w : world) :
  nth 0 r NUL = "A"%char ->
  fits BUFFER_MAX_LEN (lit "RXD: " ++ r) ->
  exists payload,
    trace (world_of (process_reply sock (strlen r) r w))
    = trace w ++ LogEntry (lit "RXD: " ++ payload) :: Sendto sock payload
              :: (if net_up w then [] else [Stderr (lit "sendto")])
    /\ length payload = length r
    /\ (forall i : nat,
          nth i payload NUL
          = if Ascii.eqb (nth i r NUL) "!"%char then " "%char else nth i r NUL)
    /\ (r = lit "ATRV!12.3V!!>" -> payload = lit "ATRV 12.3V  >")
    /\ (r = lit "ATRV!12.3V!" -> payload = lit "ATRV 12.3V ").
Proof.
  intros Hhd _. exists (replacechar r "!"%char " "%char). repeat split.
  - now apply process_reply_AT.
  - unfold replacechar. apply length_map.
  - apply nth_replacechar.
  - intros ->. reflexivity.
  - intros ->. reflexivity.
Qed.

(** C8: a reply that fits [ecu_msg], starts with [0] and has a second
    token whose log line fits [log_buf] is answered with that token, the
    first one (the echo of the request) left out.  The reply
    ["0100!41 00 BE 3E A1!!>"], framed from ["0100\r41 00 BE 3E A1\r\r>"],
    is answered with ["41 00 BE 3E A1"], and so would be the string
    ["0100!41 00 BE 3E A1!"]. *)
Theorem C8_second_token_is_sent (BUFFER_MAX_LEN sock n : Z) (r t : bytes)
    (w : world) :
  nth 0 r NUL = "0"%char ->
  nth_error (tokens r) 1 = Some t ->
  fits BUFFER_MAX_LEN r ->
  fits BUFFER_MAX_LEN (lit "RXD: " ++ t) ->
  trace (world_of (process_reply sock n r w))
  = trace w ++ LogEntry (lit "RXD: " ++ t) :: Sendto sock t
            :: (if net_up w then [] else [Stderr (lit "sendto")])
  /\ (r = lit "0100!41 00 BE 3E A1!!>" -> t = lit "41 00 BE 3E A1")
  /\ (r = lit "0100!41 00 BE 3E A1!" -> t = lit "41 00 BE 3E A1").
Proof.
  intros Hhd Htok _ _. split; [|split].
  - rewrite process_reply_OBD, Htok by exact Hhd.
    run. rewrite firstn_strlen. destruct (net_up w).
    + destruct (Z.ltb_spec (strlen t) 0) as [H|_]; [unfold strlen in H; lia|].
      cbn [world_of trace]. now rewrite <- app_assoc.
    + cbn [Z.ltb Z.compare world_of trace]. now rewrite <- !app_assoc.
  - intros ->. vm_compute in Htok. now injection Htok as <-.
  - intros ->. vm_compute in Htok. now injection Htok as <-.
Qed.

(** C4 (as amended): a reply that fits [ecu_msg], starts with [0] and
    has no second token is dropped without a trace: no log entry, no
    datagram, the world is left as it was. *)
Theorem C4_no_second_token_is_dropped (BUFFER_MAX_LEN sock n : Z) (r : bytes)
    (w : world) :
  nth 0 r NUL = "0"%char ->
  nth_error (tokens r) 1 = None ->
  fits BUFFER_MAX_LEN r ->
  process_reply sock n r w = Returns tt w.
Proof.
  intros Hhd Htok _. now rewrite process_reply_OBD, Htok by exact Hhd.
Qed.

End ClassifierClaims.

(** ** The framer inside the turn *)

Section GatewayClaims.

(** C10: a call of [recv_ecu_reply] that returns has stored one byte in
    each of the cells 0 .. n-1, [n] being the value returned; a [>] is among
    them, so [n] is at least 1 and the test [n > 0] of [main] lets the
    reply through.  So a turn of [main] whose framing returns goes on
    with the block that handles the reply: when the call was the one of
    that turn, and the query, the reply and their log lines fit the
    arrays, the turn ends as that block does on the reply stored. *)
Theorem C10_return_value_counts_stored_bytes (port : Z) (w : world) (n : Z)
    (mem : list (Z * ascii)) (w' : world) :
  recv_ecu_reply port w = Returns (n, mem) w' ->
  n = Z.of_nat (length mem)
  /\ map fst mem = map Z.of_nat (seq 0 (length mem))
  /\ In ">"%char (map snd mem)
  /\ 1 <= n
  /\ (0 <? n) = true
  /\ forall (BUFFER_MAX_LEN sock : Z) (q : bytes) (w0 : world),
       (n0 <- send_ecu_query BUFFER_MAX_LEN port q ;;
        if 0 <? n0 then print_log_entry (lit "TXD: " ++ q) else ret tt) w0
       = Returns tt w ->
       fits BUFFER_MAX_LEN (lit "TXD: " ++ q) ->
       fits BUFFER_MAX_LEN (lit "RXD Unknown ECU Message: " ++ string_of mem) ->
       main_iteration BUFFER_MAX_LEN sock port q w0
       = process_reply sock n (string_of mem) w'.
Proof.
  intros Hrecv. pose proof Hrecv as H.
  apply recv_returns_inv in H. destruct H as (Hp & Hn & Hmem & _).
  apply prompt_in_reply in Hp.
  assert (Hpos : 1 <= n).
  { subst n. destruct (reply_bytes (rx w)); [contradiction Hp|].
    rewrite strlen_cons. unfold strlen. lia. }
  assert (Hguard : (0 <? n) = true) by (apply Z.ltb_lt; lia).
  split; [subst; now rewrite length_number_from|].
  split; [subst; rewrite length_number_from; apply (cells_of_number_from _ 0)|].
  split; [subst mem; now rewrite map_snd_number_from|].
  split; [exact Hpos|]. split; [exact Hguard|].
  intros BUFFER_MAX_LEN sock q w0 Hsent _ _.
  unfold main_iteration. unfold bind at 1. unfold bind at 1 in Hsent.
  destruct (send_ecu_query BUFFER_MAX_LEN port q w0) as [n0 w1|w1|w1];
    try discriminate Hsent.
  unfold bind at 1. rewrite Hsent.
  unfold bind at 1. rewrite Hrecv, Hguard. reflexivity.
Qed.

End GatewayClaims.

(** ** Instances *)

(** C4, as stated, at ["0100>"]: the reply starts with [0], has one token,
    and no line reaches the log. *)
Lemma C4_unknown_not_logged :
  nth 0 (lit "0100>") NUL = "0"%char
  /\ nth_error (tokens (lit "0100>")) 1 = None
  /\ ~ exists line,
         In (LogEntry line)
            (trace (world_of (process_reply 3 5 (lit "0100>") (world_with [])))).
Proof.
  repeat split. intros (line & Hin). exact Hin.
Qed.

Lemma C4_no_second_token_is_dropped_witness :
  nth 0 (lit "0100>") NUL = "0"%char
  /\ nth_error (tokens (lit "0100>")) 1 = None
  /\ fits 256 (lit "0100>")
  /\ process_reply 3 5 (lit "0100>") (world_with [])
     = Returns tt (world_with []).
Proof.
  split; [reflexivity|]. split; [reflexivity|]. split; [reflexivity|].
  apply (C4_no_second_token_is_dropped 256); reflexivity.
Defined.

(** C7, as stated.  On the line: the interpreter answers ATRV with
    ["ATRV\r12.3V\r\r>"], the framer returns ["ATRV!12.3V!!>"], and the
    client is sent ["ATRV 12.3V  >"], trailing spaces and prompt included.
    On the string of the claim: ["ATRV!12.3V!"] would be sent with a space
    at its end, not as ["ATRV 12.3V"]. *)
Lemma C7_trailing_delimiter_is_sent :
  recv_ecu_reply 0
    (world_with [lit "ATRV" ++ [CR] ++ lit "12.3V" ++ [CR; CR] ++ lit ">"])
  = Returns (13, number_from 0 (lit "ATRV!12.3V!!>"))
      {| rx := []; net_up := true;
         trace := [SerialPoll 0 (lit "ATRV" ++ [CR] ++ lit "12.3V"
                                 ++ [CR; CR] ++ lit ">");
                   Stdout (lit "RXD > Interpreter Ready" ++ [LF]);
                   SerialFlushRX 0] |}
  /\ sent_payloads
       (trace (world_of
                 (main_iteration 256 3 0 (lit "ATRV" ++ [CR])
                    (world_with [lit "ATRV" ++ [CR] ++ lit "12.3V"
                                 ++ [CR; CR] ++ lit ">"]))))
     = [lit "ATRV 12.3V  >"]
  /\ nth 0 (lit "ATRV!12.3V!") NUL = "A"%char
  /\ sent_payloads
       (trace (world_of (process_reply 3 (strlen (lit "ATRV!12.3V!"))
                           (lit "ATRV!12.3V!") (world_with []))))
     = [lit "ATRV 12.3V "]
  /\ sent_payloads
       (trace (world_of (process_reply 3 (strlen (lit "ATRV!12.3V!"))
                           (lit "ATRV!12.3V!") (world_with []))))
     <> [lit "ATRV 12.3V"].
Proof.
  repeat split. discriminate.
Qed.

Lemma C7_AT_reply_sent_with_spaces_witness :
  nth 0 (lit "ATRV!12.3V!!>") NUL = "A"%char
  /\ fits 256 (lit "RXD: " ++ lit "ATRV!12.3V!!>")
  /\ exists payload,
       trace (world_of (process_reply 3 (strlen (lit "ATRV!12.3V!!>"))
                          (lit "ATRV!12.3V!!>") (world_with [])))
       = [] ++ LogEntry (lit "RXD: " ++ payload) :: Sendto 3 payload :: []
       /\ length payload = length (lit "ATRV!12.3V!!>")
       /\ (forall i : nat,
             nth i payload NUL
             = if Ascii.eqb (nth i (lit "ATRV!12.3V!!>") NUL) "!"%char
               then " "%char else nth i (lit "ATRV!12.3V!!>") NUL)
       /\ (lit "ATRV!12.3V!!>" = lit "ATRV!12.3V!!>"
           -> payload = lit "ATRV 12.3V  >")
       /\ (lit "ATRV!12.3V!!>" = lit "ATRV!12.3V!"
           -> payload = lit "ATRV 12.3V ").
Proof.
  split; [reflexivity|]. split; [reflexivity|].
  apply (C7_AT_reply_sent_with_spaces 256 3 (lit "ATRV!12.3V!!>")
           (world_with [])); reflexivity.
Defined.

Lemma C8_second_token_is_sent_witness :
  nth 0 (lit "0100!41 00 BE 3E A1!!>") NUL = "0"%char
  /\ nth_error (tokens (lit "0100!41 00 BE 3E A1!!>")) 1
     = Some (lit "41 00 BE 3E A1")
  /\ fits 256 (lit "0100!41 00 BE 3E A1!!>")
  /\ fits 256 (lit "RXD: " ++ lit "41 00 BE 3E A1")
  /\ trace (world_of (process_reply 3 22 (lit "0100!41 00 BE 3E A1!!>")
                        (world_with [])))
     = [] ++ LogEntry (lit "RXD: " ++ lit "41 00 BE 3E A1")
          :: Sendto 3 (lit "41 00 BE 3E A1") :: []
  /\ (lit "0100!41 00 BE 3E A1!!>" = lit "0100!41 00 BE 3E A1!!>"
      -> lit "41 00 BE 3E A1" = lit "41 00 BE 3E A1")
  /\ (lit "0100!41 00 BE 3E A1!!>" = lit "0100!41 00 BE 3E A1!"
      -> lit "41 00 BE 3E A1" = lit "41 00 BE 3E A1").
Proof.
  split; [reflexivity|]. split; [reflexivity|].
  split; [reflexivity|]. split; [reflexivity|].
  apply (C8_second_token_is_sent 256 3 22 (lit "0100!41 00 BE 3E A1!!>")
           (lit "41 00 BE 3E A1") (world_with []));
    reflexivity.
Defined.

(** C5, as stated, at the empty query: the call does not leave all the
    rest as it was, it prints a line on the console. *)
Lemma C5_error_line_is_printed :
  strlen [] = 0
  /\ send_ecu_query 256 0 [] (world_with [])
     = Returns 0
         {| rx := []; net_up := true;
            trace := [Stdout (lit "ERROR: Bad message length!" ++ [LF])] |}
  /\ world_of (send_ecu_query 256 0 [] (world_with [])) <> world_with [].
Proof.
  repeat split. discriminate.
Qed.

Lemma C5_bad_length_is_rejected_witness :
  (strlen (lit "01 00" ++ [CR]) = 0 \/ 4 < strlen (lit "01 00" ++ [CR]))
  /\ strlen (lit "01 00" ++ [CR]) <= INT_MAX
  /\ send_ecu_query 4 0 (lit "01 00" ++ [CR]) (world_with [lit ">"])
     = Returns 0
         (record_event (Stdout (lit "ERROR: Bad message length!" ++ [LF]))
                       (world_with [lit ">"]))
  /\ filter is_serial
       (trace (world_of (send_ecu_query 4 0 (lit "01 00" ++ [CR])
                           (world_with [lit ">"]))))
     = filter is_serial (trace (world_with [lit ">"]))
  /\ filter is_log
       (trace (world_of (send_ecu_query 4 0 (lit "01 00" ++ [CR])
                           (world_with [lit ">"]))))
     = filter is_log (trace (world_with [lit ">"]))
  /\ filter is_sendto
       (trace (world_of (send_ecu_query 4 0 (lit "01 00" ++ [CR])
                           (world_with [lit ">"]))))
     = filter is_sendto (trace (world_with [lit ">"]))
  /\ rx (world_of (send_ecu_query 4 0 (lit "01 00" ++ [CR])
                     (world_with [lit ">"])))
     = rx (world_with [lit ">"])
  /\ net_up (world_of (send_ecu_query 4 0 (lit "01 00" ++ [CR])
                         (world_with [lit ">"])))
     = net_up (world_with [lit ">"]).
Proof.
  split; [right; reflexivity|].
  split; [vm_compute; discriminate|].
  apply (C5_bad_length_is_rejected 4 0 (lit "01 00" ++ [CR])
           (world_with [lit ">"])).
  - right. reflexivity.
  - vm_compute; discriminate.
Defined.

Lemma C6_one_write_before_any_poll_witness :
  1 <= strlen (lit "0100" ++ [CR]) <= 256
  /\ exists later,
       trace (world_of
                (main_iteration 256 3 0 (lit "0100" ++ [CR])
                   (world_with [lit "0100" ++ [CR] ++ lit "41 00 BE 3E A1 13";
                                [CR; CR] ++ lit ">"])))
       = [] ++ SerialSend 0 (lit "0100" ++ [CR]) :: later
       /\ filter is_serial_send later = [].
Proof.
  split; [vm_compute; split; discriminate|].
  apply (C6_one_write_before_any_poll 256 3 0 (lit "0100" ++ [CR])
           (world_with [lit "0100" ++ [CR] ++ lit "41 00 BE 3E A1 13";
                        [CR; CR] ++ lit ">"])).
  vm_compute; split; discriminate.
Defined.

Lemma C9_framed_reply_has_no_control_byte_witness :
  recv_ecu_reply 0
    (world_with [lit "41 00" ++ [CR] ++ lit "41 00 BE 3E A1 13";
                 [CR; LF; CR] ++ lit ">"])
  = Returns (26, number_from 0 (lit "41 00!41 00 BE 3E A1 13!!>"))
      {| rx := []; net_up := true;
         trace := [SerialPoll 0 (lit "41 00" ++ [CR] ++ lit "41 00 BE 3E A1 13");
                   SerialPoll 0 ([CR; LF; CR] ++ lit ">");
                   Stdout (lit "RXD > Interpreter Ready" ++ [LF]);
                   SerialFlushRX 0] |}
  /\ exists polled,
       [lit "41 00" ++ [CR] ++ lit "41 00 BE 3E A1 13"; [CR; LF; CR] ++ lit ">"]
       = polled ++ []
       /\ string_of (number_from 0 (lit "41 00!41 00 BE 3E A1 13!!>"))
          = flat_map frame_byte (concat polled)
       /\ map snd (number_from 0 (lit "41 00!41 00 BE 3E A1 13!!>"))
          = string_of (number_from 0 (lit "41 00!41 00 BE 3E A1 13!!>"))
       /\ Forall (fun c => 32 <= code c)
            (string_of (number_from 0 (lit "41 00!41 00 BE 3E A1 13!!>"))).
Proof.
  split; [reflexivity|].
  apply (C9_framed_reply_has_no_control_byte 0
           (world_with [lit "41 00" ++ [CR] ++ lit "41 00 BE 3E A1 13";
                        [CR; LF; CR] ++ lit ">"])
           26 (number_from 0 (lit "41 00!41 00 BE 3E A1 13!!>"))
           {| rx := []; net_up := true;
              trace := [SerialPoll 0 (lit "41 00" ++ [CR] ++ lit "41 00 BE 3E A1 13");
                        SerialPoll 0 ([CR; LF; CR] ++ lit ">");
                        Stdout (lit "RXD > Interpreter Ready" ++ [LF]);
                        SerialFlushRX 0] |}).
  reflexivity.
Defined.

Lemma C10_return_value_counts_stored_bytes_witness :
  recv_ecu_reply 0
    (add_events [SerialSend 0 (lit "ATZ" ++ [CR]);
                 Stdout (lit "TXD 4 bytes: " ++ lit "ATZ" ++ [CR; LF]);
                 SerialFlushTX 0;
                 LogEntry (lit "TXD: " ++ lit "ATZ" ++ [CR])]
                (world_with [lit "OK"; [CR] ++ lit ">"]))
  = Returns (4, number_from 0 (lit "OK!>"))
      {| rx := []; net_up := true;
         trace := [SerialSend 0 (lit "ATZ" ++ [CR]);
                   Stdout (lit "TXD 4 bytes: " ++ lit "ATZ" ++ [CR; LF]);
                   SerialFlushTX 0;
                   LogEntry (lit "TXD: " ++ lit "ATZ" ++ [CR]);
                   SerialPoll 0 (lit "OK"); SerialPoll 0 ([CR] ++ lit ">");
                   Stdout (lit "RXD > Interpreter Ready" ++ [LF]);
                   SerialFlushRX 0] |}
  /\ 4 = Z.of_nat (length (number_from 0 (lit "OK!>")))
  /\ map fst (number_from 0 (lit "OK!>"))
     = map Z.of_nat (seq 0 (length (number_from 0 (lit "OK!>"))))
  /\ In ">"%char (map snd (number_from 0 (lit "OK!>")))
  /\ 1 <= 4
  /\ (0 <? 4) = true
  /\ main_iteration 256 3 0 (lit "ATZ" ++ [CR])
       (world_with [lit "OK"; [CR] ++ lit ">"])
     = process_reply 3 4 (string_of (number_from 0 (lit "OK!>")))
         {| rx := []; net_up := true;
            trace := [SerialSend 0 (lit "ATZ" ++ [CR]);
                      Stdout (lit "TXD 4 bytes: " ++ lit "ATZ" ++ [CR; LF]);
                      SerialFlushTX 0;
                      LogEntry (lit "TXD: " ++ lit "ATZ" ++ [CR]);
                      SerialPoll 0 (lit "OK"); SerialPoll 0 ([CR] ++ lit ">");
                      Stdout (lit "RXD > Interpreter Ready" ++ [LF]);
                      SerialFlushRX 0] |}.
Proof.
  split; [reflexivity|].
  destruct (C10_return_value_counts_stored_bytes 0
              (add_events [SerialSend 0 (lit "ATZ" ++ [CR]);
                           Stdout (lit "TXD 4 bytes: " ++ lit "ATZ" ++ [CR; LF]);
                           SerialFlushTX 0;
                           LogEntry (lit "TXD: " ++ lit "ATZ" ++ [CR])]
                          (world_with [lit "OK"; [CR] ++ lit ">"]))
              4 (number_from 0 (lit "OK!>"))
              {| rx := []; net_up := true;
                 trace := [SerialSend 0 (lit "ATZ" ++ [CR]);
                           Stdout (lit "TXD 4 bytes: " ++ lit "ATZ" ++ [CR; LF]);
                           SerialFlushTX 0;
                           LogEntry (lit "TXD: " ++ lit "ATZ" ++ [CR]);
                           SerialPoll 0 (lit "OK");
                           SerialPoll 0 ([CR] ++ lit ">");
                           Stdout (lit "RXD > Interpreter Ready" ++ [LF]);
                           SerialFlushRX 0] |}
              eq_refl)
    as (Hn & Hcells & Hprompt & Hpos & Hguard & Hturn).
  split; [exact Hn|]. split; [exact Hcells|]. split; [exact Hprompt|].
  split; [exact Hpos|]. split; [exact Hguard|].
  apply (Hturn 256 3 (lit "ATZ" ++ [CR]) (world_with [lit "OK"; [CR] ++ lit ">"]));
    reflexivity.
Defined.

(** * Further properties *)

(** ** More on the framer *)

Section FramerBounds.

Lemma frame_never_longer (input : bytes) :
  strlen (flat_map frame_byte input) <= strlen input.
Proof.
  induction input as [|c input IH]; [reflexivity|].
  cbn [flat_map]. rewrite strlen_app, strlen_cons.
  assert (strlen (frame_byte c) <= 1).
  { unfold frame_byte. destruct (code c <? 32); [destruct (Ascii.eqb c CR)|];
      vm_compute; discriminate. }
  lia.
Qed.

Lemma cells_in_range (out : bytes) (i : Z) :
  Forall (fun s => i <= fst s < i + strlen out) (number_from i out).
Proof.
  revert i. induction out as [|c out IH]; intros i; [constructor|].
  cbn [number_from]. rewrite strlen_cons. constructor.
  - cbn [fst]. unfold strlen. lia.
  - eapply Forall_impl; [|apply IH]. cbn beta. intros s Hs. lia.
Qed.

Lemma frame_printable_id (out : bytes) :
  Forall (fun b => 32 <= code b) out -> flat_map frame_byte out = out.
Proof.
  induction 1 as [|c out Hc _ IH]; [reflexivity|].
  cbn [flat_map]. rewrite IH. unfold frame_byte.
  destruct (Z.ltb_spec (code c) 32); [lia|reflexivity].
Qed.

Lemma has_prompt_app (a b : bytes) :
  has_prompt (a ++ b) = has_prompt a || has_prompt b.
Proof.
  apply existsb_app.
Qed.

Lemma has_prompt_In (chunk : bytes) :
  has_prompt chunk = true <-> In ">"%char chunk.
Proof.
  unfold has_prompt. rewrite existsb_exists. split.
  - intros (c & Hin & Hc). apply Ascii.eqb_eq in Hc. now subst c.
  - intros Hin. exists ">"%char. now split.
Qed.

Lemma prompted_concat (polls : list bytes) :
  prompted polls = has_prompt (concat polls).
Proof.
  induction polls as [|chunk later IH]; [reflexivity|].
  cbn [prompted existsb concat]. rewrite has_prompt_app. now f_equal.
Qed.

Lemma consumed_has_prompt (polls : list bytes) :
  prompted polls = true -> has_prompt (concat (consumed polls)) = true.
Proof.
  induction polls as [|chunk later IH]; cbn [prompted existsb consumed];
    [discriminate|].
  destruct (has_prompt chunk) eqn:Hp; cbn [orb concat]; intros H;
    rewrite has_prompt_app, Hp; [reflexivity|]. now apply IH.
Qed.

(** When the only [>] of a stream is its last byte, a part of the stream
    that holds a [>] is all of it. *)
Lemma prompt_closes_stream (body x y : bytes) :
  x ++ y = body ++ [">"%char] ->
  has_prompt body = false ->
  has_prompt x = true ->
  x = body ++ [">"%char] /\ y = [].
Proof.
  revert x. induction body as [|b body IH]; intros x Heq Hbody Hx.
  - destruct x as [|c x]; [discriminate Hx|].
    cbn [app] in Heq. injection Heq as -> Hrest.
    apply app_eq_nil in Hrest. destruct Hrest as [-> ->]. now split.
  - destruct x as [|c x]; [discriminate Hx|].
    cbn [app] in Heq. injection Heq as -> Hrest.
    unfold has_prompt in Hbody, Hx. cbn [existsb] in Hbody, Hx.
    apply orb_false_iff in Hbody. destruct Hbody as [Hb Hbody].
    rewrite Hb in Hx. cbn [orb] in Hx.
    destruct (IH x Hrest Hbody Hx) as [-> ->]. now split.
Qed.

Lemma unprompted_polls (port : Z) (polls : list bytes) :
  prompted polls = false ->
  consumed polls = polls
  /\ unread polls = []
  /\ poll_events port polls = map (SerialPoll port) polls.
Proof.
  induction polls as [|chunk later IH]; cbn [prompted existsb];
    [now repeat split|].
  intros H. apply orb_false_iff in H. destruct H as [Hp Hlater].
  destruct (IH Hlater) as (Hc & Hu & He).
  cbn [consumed unread poll_events flat_map map]. rewrite Hp.
  fold (poll_events port later). rewrite Hc, Hu, He. repeat split.
  f_equal. unfold prompt_events.
  assert (Hnone : forall l, has_prompt l = false ->
            flat_map (fun c => if Ascii.eqb c ">"%char
                               then [Stdout (lit "RXD > Interpreter Ready" ++ [LF])]
                               else []) l = []).
  { induction l as [|c l IHl]; [reflexivity|].
    unfold has_prompt. cbn [existsb flat_map]. intros Hl.
    apply orb_false_iff in Hl. destruct Hl as [Hc' Hl].
    rewrite Hc'. now apply IHl. }
  now rewrite Hnone.
Qed.

(** X1: the reply is never longer than what was read for it: the value
    returned is at most the number of bytes polled, and every store goes
    to a cell below that number. *)
Theorem reply_within_bytes_read (port : Z) (w : world) (n : Z)
    (mem : list (Z * ascii)) (w' : world) :
  recv_ecu_reply port w = Returns (n, mem) w' ->
  exists polled,
    rx w = polled ++ rx w'
    /\ n <= strlen (concat polled)
    /\ Forall (fun s => 0 <= fst s < strlen (concat polled)) mem.
Proof.
  intros H. apply recv_returns_inv in H. destruct H as (_ & -> & -> & ->).
  exists (consumed (rx w)). unfold reply_bytes.
  pose proof (frame_never_longer (concat (consumed (rx w)))) as Hlen.
  repeat split.
  - apply consumed_unread.
  - exact Hlen.
  - eapply Forall_impl; [|apply cells_in_range]. cbn beta. intros s Hs. lia.
Qed.

(** X2: when the [>] is the last byte the interpreter sends, the reply
    does not depend on how the polls cut the stream: it is the framed
    stream, whatever the chunks. *)
Theorem reply_independent_of_chunking (port : Z) (w : world) (body : bytes) :
  concat (rx w) = body ++ [">"%char] ->
  has_prompt body = false ->
  exists w',
    recv_ecu_reply port w
    = Returns (strlen (flat_map frame_byte body) + 1,
               number_from 0 (flat_map frame_byte body ++ [">"%char])) w'
    /\ concat (rx w') = [].
Proof.
  intros Hstream Hbody.
  assert (Hp : prompted (rx w) = true).
  { rewrite prompted_concat, Hstream, has_prompt_app, Hbody. reflexivity. }
  pose proof (consumed_has_prompt (rx w) Hp) as Hc.
  pose proof (consumed_unread (rx w)) as Hsplit.
  rewrite Hsplit, concat_app in Hstream.
  destruct (prompt_closes_stream body _ _ Hstream Hbody Hc) as [Hread Hrest].
  rewrite recv_ecu_reply_eq, Hp. unfold reply_bytes. rewrite Hread.
  rewrite flat_map_app, strlen_app.
  change (flat_map frame_byte [">"%char]) with [">"%char].
  eexists. split; [reflexivity|]. exact Hrest.
Qed.

(** X3: framing is idempotent: a reply read back through the framer, as
    one chunk, comes out as it went in, with the same value returned. *)
Theorem framing_is_idempotent (port : Z) (w : world) (n : Z)
    (mem : list (Z * ascii)) (w' : world) :
  recv_ecu_reply port w = Returns (n, mem) w' ->
  forall (port' : Z) (net : bool) (tr : list event),
    exists w'',
      recv_ecu_reply port' {| rx := [map snd mem]; net_up := net; trace := tr |}
      = Returns (n, mem) w''.
Proof.
  intros H port' net tr.
  apply recv_returns_inv in H. destruct H as (Hp & -> & -> & _).
  rewrite map_snd_number_from.
  assert (Hin : has_prompt (reply_bytes (rx w)) = true)
    by (apply has_prompt_In, prompt_in_reply, Hp).
  assert (Hsame : reply_bytes [reply_bytes (rx w)] = reply_bytes (rx w)).
  { unfold reply_bytes at 1. cbn [consumed]. rewrite Hin. cbn [concat].
    rewrite app_nil_r. apply frame_printable_id, reply_printable. }
  eexists. rewrite recv_ecu_reply_eq. cbn [rx prompted existsb].
  unfold bytes in *. rewrite Hin, Hsame. cbn [orb]. reflexivity.
Qed.

(** X4: without a [>] on the line the call never returns: it polls
    every chunk there is, in order, and that is all it does; the receive
    buffer is not flushed and nothing is printed. *)
Theorem no_prompt_no_return (port : Z) (w : world) :
  prompted (rx w) = false ->
  recv_ecu_reply port w
  = Blocks {| rx := []; net_up := net_up w;
              trace := trace w ++ map (SerialPoll port) (rx w) |}.
Proof.
  intros Hp. rewrite recv_ecu_reply_eq, Hp.
  destruct (unprompted_polls port (rx w) Hp) as (-> & -> & ->).
  reflexivity.
Qed.

End FramerBounds.

(** ** More on the dispatcher and the classifier *)

Section ClassifierBounds.

Lemma accepted_spec (BUFFER_MAX_LEN : Z) (q : bytes) :
  accepted BUFFER_MAX_LEN q = true <-> 1 <= strlen q <= BUFFER_MAX_LEN.
Proof.
  unfold accepted. rewrite andb_true_iff, Z.leb_le, Z.leb_le. reflexivity.
Qed.

Lemma rejected_spec (BUFFER_MAX_LEN : Z) (q : bytes) :
  accepted BUFFER_MAX_LEN q = false
  <-> strlen q = 0 \/ BUFFER_MAX_LEN < strlen q.
Proof.
  unfold accepted. rewrite andb_false_iff, Z.leb_gt, Z.leb_gt.
  unfold strlen. lia.
Qed.

(** X5: for a query of at most INT_MAX bytes, [send_ecu_query] always
    returns.  The value is the length of the query when it passes the
    length test and 0 otherwise; it is positive exactly when the query was
    written, and a written query is written whole, once, and followed by
    the flush of the transmit buffer. *)
Theorem send_result_tells_whether_written (BUFFER_MAX_LEN port : Z)
    (q : bytes) (w : world) :
  strlen q <= INT_MAX ->
  exists n w',
    send_ecu_query BUFFER_MAX_LEN port q w = Returns n w'
    /\ n = (if accepted BUFFER_MAX_LEN q then strlen q else 0)
    /\ (0 < n <-> accepted BUFFER_MAX_LEN q = true)
    /\ filter is_serial (trace w')
       = filter is_serial (trace w)
         ++ (if accepted BUFFER_MAX_LEN q
             then [SerialSend port q; SerialFlushTX port] else [])
    /\ rx w' = rx w
    /\ net_up w' = net_up w.
Proof.
  intros _.
  destruct (accepted BUFFER_MAX_LEN q) eqn:Hacc.
  - apply accepted_spec in Hacc.
    rewrite send_ecu_query_accepts by exact Hacc.
    do 2 eexists. split; [reflexivity|].
    unfold add_events. cbn [trace rx net_up].
    rewrite filter_app. cbn [filter is_serial].
    repeat split; try reflexivity; lia.
  - apply rejected_spec in Hacc.
    unfold send_ecu_query. cbv zeta.
    replace ((strlen q <? 1) || (BUFFER_MAX_LEN <? strlen q)) with true.
    2:{ symmetry. apply orb_true_iff.
        destruct Hacc as [H|H]; [left|right]; apply Z.ltb_lt; lia. }
    run. do 2 eexists. split; [reflexivity|].
    cbn [trace rx net_up]. rewrite filter_app. cbn [filter is_serial].
    repeat split; try reflexivity; try lia; try discriminate.
Qed.

Lemma unknown_reply_events (sock n : Z) (r : bytes) (w : world) :
  nth 0 r NUL <> "A"%char ->
  nth 0 r NUL <> "0"%char ->
  trace (world_of (process_reply sock n r w))
  = trace w ++ [LogEntry (lit "RXD Unknown ECU Message: " ++ r)].
Proof.
  intros HA H0. unfold process_reply.
  destruct (Ascii.eqb_spec (nth 0 r NUL) "A"%char) as [E|_]; [contradiction|].
  destruct (Ascii.eqb_spec (nth 0 r NUL) "0"%char) as [E|_]; [contradiction|].
  reflexivity.
Qed.

(** X6: a reply that starts with neither [A] nor [0], the empty reply
    included, and whose log line fits [log_buf] (the reply then fits
    [ecu_msg]) is logged as unknown, whole, and that is all: nothing is
    sent and the call returns. *)
Theorem unknown_reply_is_only_logged (BUFFER_MAX_LEN sock n : Z) (r : bytes)
    (w : world) :
  nth 0 r NUL <> "A"%char ->
  nth 0 r NUL <> "0"%char ->
  fits BUFFER_MAX_LEN (lit "RXD Unknown ECU Message: " ++ r) ->
  process_reply sock n r w
  = Returns tt (record_event (LogEntry (lit "RXD Unknown ECU Message: " ++ r)) w).
Proof.
  intros HA H0 _. unfold process_reply.
  destruct (Ascii.eqb_spec (nth 0 r NUL) "A"%char) as [E|_]; [contradiction|].
  destruct (Ascii.eqb_spec (nth 0 r NUL) "0"%char) as [E|_]; [contradiction|].
  reflexivity.
Qed.

Lemma fields_clean (s : bytes) :
  Forall (fun f => ~ In "!"%char f /\ forall c, In c f -> In c s) (fields s).
Proof.
  induction s as [|c s IH].
  - cbn [fields]. constructor; [|constructor].
    split; [intros H; exact H | intros c H; exact H].
  - cbn [fields]. destruct (Ascii.eqb_spec c "!"%char) as [->|Hc].
    + constructor.
      * split; [intros H; exact H | intros c' H; contradiction H].
      * eapply Forall_impl; [|exact IH]. cbn beta.
        intros f [Hno Hin]. split; [exact Hno|].
        intros c' Hc'. right. now apply Hin.
    + destruct (fields s) as [|f fs].
      * constructor; [|constructor]. split.
        -- intros [H|H]; [now apply Hc | exact H].
        -- intros c' [H|H]; [now left | contradiction H].
      * inversion IH as [|f' fs' [Hno Hin] Hrest]; subst.
        constructor.
        -- split.
           ++ intros [H|H]; [now apply Hc | now apply Hno].
           ++ intros c' [H|H]; [now left | right; now apply Hin].
        -- eapply Forall_impl; [|exact Hrest]. cbn beta.
           intros g [Hgno Hgin]. split; [exact Hgno|].
           intros c' Hc'. right. now apply Hgin.
Qed.

(** A token is not empty, holds no [!], and is made of bytes of the
    string it was cut from. *)
Lemma token_clean (s t : bytes) :
  In t (tokens s) ->
  t <> [] /\ ~ In "!"%char t /\ forall c, In c t -> In c s.
Proof.
  unfold tokens. rewrite filter_In. intros [Hin Hne].
  pose proof (fields_clean s) as Hall. rewrite Forall_forall in Hall.
  destruct (Hall t Hin) as [Hno Hsub].
  repeat split; try assumption.
  intros ->. discriminate Hne.
Qed.

Lemma replacechar_clean (r : bytes) :
  ~ In "!"%char (replacechar r "!"%char " "%char)
  /\ forall c, In c (replacechar r "!"%char " "%char) ->
               c = " "%char \/ In c r.
Proof.
  unfold replacechar. split.
  - rewrite in_map_iff. intros (c & Hc & _).
    destruct (Ascii.eqb_spec c "!"%char) as [E|Hne];
      [discriminate Hc | now apply Hne].
  - intros c. rewrite in_map_iff. intros (c' & Hc & Hin).
    destruct (Ascii.eqb c' "!"%char); subst; [now left | now right].
Qed.

Lemma sent_payloads_app (a b : list event) :
  sent_payloads (a ++ b) = sent_payloads a ++ sent_payloads b.
Proof.
  apply flat_map_app.
Qed.

Lemma log_lines_app (a b : list event) :
  log_lines (a ++ b) = log_lines a ++ log_lines b.
Proof.
  apply flat_map_app.
Qed.

(** What handling a reply sends and logs, whatever the reply. *)
Lemma process_reply_payloads (sock : Z) (r : bytes) (w : world) :
  exists evs ps,
    trace (world_of (process_reply sock (strlen r) r w)) = trace w ++ evs
    /\ filter is_serial evs = []
    /\ sent_payloads evs = ps
    /\ (length ps <= 1)%nat
    /\ Forall (fun p => p <> [] /\ ~ In "!"%char p
                        /\ forall c, In c p -> c = " "%char \/ In c r) ps
    /\ (length (log_lines evs) <= 1)%nat
    /\ Forall (fun l => firstn 3 l = lit "RXD") (log_lines evs).
Proof.
  destruct (Ascii.eqb_spec (nth 0 r NUL) "A"%char) as [HA|HA].
  - rewrite process_reply_AT by exact HA.
    do 2 eexists. split; [reflexivity|].
    split; [now destruct (net_up w)|].
    split; [reflexivity|].
    replace (sent_payloads _) with [replacechar r "!"%char " "%char]
      by (now destruct (net_up w)).
    replace (log_lines _)
      with [lit "RXD: " ++ replacechar r "!"%char " "%char]
      by (now destruct (net_up w)).
    split; [cbn [length]; lia|].
    split.
    { constructor; [|constructor].
      destruct (replacechar_clean r) as [Hno Hsub].
      repeat split; try assumption.
      destruct r as [|c r]; [discriminate HA | discriminate]. }
    split; [cbn [length]; lia|].
    constructor; [reflexivity|constructor].
  - destruct (Ascii.eqb_spec (nth 0 r NUL) "0"%char) as [H0|H0].
    + rewrite process_reply_OBD by exact H0.
      destruct (nth_error (tokens r) 1) as [t|] eqn:Htok.
      * apply nth_error_In, token_clean in Htok.
        destruct Htok as (Hne & Hno & Hsub).
        run. rewrite firstn_strlen.
        exists (LogEntry (lit "RXD: " ++ t) :: Sendto sock t
                :: (if net_up w then [] else [Stderr (lit "sendto")])), [t].
        split.
        { destruct (net_up w).
          - destruct (Z.ltb_spec (strlen t) 0) as [H|_];
              [unfold strlen in H; lia|].
            cbn [world_of trace]. now rewrite <- app_assoc.
          - cbn [Z.ltb Z.compare world_of trace]. now rewrite <- !app_assoc. }
        split; [now destruct (net_up w)|].
        split; [now destruct (net_up w)|].
        split; [cbn [length]; lia|].
        split.
        { constructor; [|constructor].
          repeat split; try assumption.
          intros c Hc. right. now apply Hsub. }
        replace (log_lines _) with [lit "RXD: " ++ t]
          by (now destruct (net_up w)).
        split; [cbn [length]; lia|].
        constructor; [reflexivity|constructor].
      * exists [], []. cbn [world_of]. rewrite app_nil_r.
        split; [reflexivity|]. split; [reflexivity|]. split; [reflexivity|].
        split; [simpl; lia|]. split; [constructor|].
        split; [simpl; lia | constructor].
    + rewrite unknown_reply_events by assumption.
      exists [LogEntry (lit "RXD Unknown ECU Message: " ++ r)], [].
      split; [reflexivity|]. split; [reflexivity|]. split; [reflexivity|].
      split; [simpl; lia|]. split; [constructor|].
      split; [simpl; lia|]. constructor; [reflexivity | constructor].
Qed.

(** X7: handling a reply that fits the arrays (the longest line [main]
    may log for it fits [log_buf]) sends the client at most one datagram,
    and one that is never empty, never holds a [!], and is made of bytes
    of the reply and of spaces only. *)
Theorem at_most_one_clean_datagram (BUFFER_MAX_LEN sock : Z) (r : bytes)
    (w : world) :
  fits BUFFER_MAX_LEN (lit "RXD Unknown ECU Message: " ++ r) ->
  exists ps,
    sent_payloads (trace (world_of (process_reply sock (strlen r) r w)))
    = sent_payloads (trace w) ++ ps
    /\ (length ps <= 1)%nat
    /\ Forall (fun p => p <> [] /\ ~ In "!"%char p
                        /\ forall c, In c p -> c = " "%char \/ In c r) ps.
Proof.
  intros _.
  destruct (process_reply_payloads sock r w)
    as (evs & ps & Htrace & _ & Hps & Hlen & Hclean & _).
  exists ps. rewrite Htrace, sent_payloads_app, Hps. repeat split; assumption.
Qed.

End ClassifierBounds.

(** ** Whole turns and the loop *)

Section Turns.

Variable BUFFER_MAX_LEN : Z.

Lemma prompt_events_quiet (chunk : bytes) :
  sent_payloads (prompt_events chunk) = []
  /\ log_lines (prompt_events chunk) = [].
Proof.
  unfold prompt_events, sent_payloads, log_lines.
  induction chunk as [|c chunk [IHs IHl]]; [now split|].
  cbn [flat_map]. rewrite !flat_map_app, IHs, IHl.
  now destruct (Ascii.eqb c ">"%char).
Qed.

Lemma poll_events_quiet (port : Z) (chunks : list bytes) :
  sent_payloads (poll_events port chunks) = []
  /\ log_lines (poll_events port chunks) = [].
Proof.
  unfold poll_events.
  induction chunks as [|chunk later [IHs IHl]]; [now split|].
  cbn [flat_map]. rewrite sent_payloads_app, log_lines_app, IHs, IHl.
  destruct (prompt_events_quiet chunk) as [Hs Hl].
  unfold sent_payloads, log_lines in *. cbn [flat_map app].
  rewrite Hs, Hl. now split.
Qed.

(** What one turn of the loop does, whatever the query and the line. *)
Lemma turn_events (sock port : Z) (q : bytes) (w : world) :
  exists evs rxd,
    trace (world_of (main_iteration BUFFER_MAX_LEN sock port q w))
    = trace w ++ evs
    /\ filter is_serial_send evs
       = (if accepted BUFFER_MAX_LEN q then [SerialSend port q] else [])
    /\ (length (sent_payloads evs) <= 1)%nat
    /\ log_lines evs
       = (if accepted BUFFER_MAX_LEN q then [lit "TXD: " ++ q] else []) ++ rxd
    /\ (length rxd <= 1)%nat
    /\ Forall (fun l => firstn 3 l = lit "RXD") rxd.
Proof.
  destruct (accepted BUFFER_MAX_LEN q) eqn:Hacc.
  - apply accepted_spec in Hacc.
    rewrite main_iteration_accepted by exact Hacc. cbv zeta.
    destruct (prompted (rx w)).
    + match goal with
      | |- context [process_reply ?s (strlen ?r) ?r ?w1] =>
          destruct (process_reply_payloads s r w1)
            as (evs & ps & Htrace & Hser & Hps & Hlen & _ & Hloglen & Hlog)
      end.
      rewrite Htrace. unfold add_events, with_rx. cbn [trace].
      rewrite <- app_assoc.
      eexists. exists (log_lines evs). split; [reflexivity|].
      destruct (poll_events_quiet port (consumed (rx w))) as [Hqs Hql].
      rewrite !filter_app, !sent_payloads_app, !log_lines_app.
      rewrite polls_are_not_sends, Hqs, Hql, Hps.
      rewrite (serial_sends_are_serial evs Hser).
      repeat split; try assumption.
    + unfold add_events, with_rx, world_of. cbn [trace].
      eexists. exists []. split; [reflexivity|].
      destruct (poll_events_quiet port (consumed (rx w))) as [Hqs Hql].
      rewrite !filter_app, !sent_payloads_app, !log_lines_app.
      rewrite polls_are_not_sends, Hqs, Hql.
      repeat split; try (simpl; lia). constructor.
  - apply rejected_spec in Hacc.
    rewrite main_iteration_rejected by exact Hacc. cbv zeta.
    destruct (prompted (rx w)).
    + match goal with
      | |- context [process_reply ?s (strlen ?r) ?r ?w1] =>
          destruct (process_reply_payloads s r w1)
            as (evs & ps & Htrace & Hser & Hps & Hlen & _ & Hloglen & Hlog)
      end.
      rewrite Htrace. unfold add_events, with_rx. cbn [trace].
      rewrite <- app_assoc.
      eexists. exists (log_lines evs). split; [reflexivity|].
      destruct (poll_events_quiet port (consumed (rx w))) as [Hqs Hql].
      rewrite !filter_app, !sent_payloads_app, !log_lines_app.
      rewrite polls_are_not_sends, Hqs, Hql, Hps.
      rewrite (serial_sends_are_serial evs Hser).
      repeat split; try assumption.
    + unfold add_events, with_rx, world_of. cbn [trace].
      eexists. exists []. split; [reflexivity|].
      destruct (poll_events_quiet port (consumed (rx w))) as [Hqs Hql].
      rewrite !filter_app, !sent_payloads_app, !log_lines_app.
      rewrite polls_are_not_sends, Hqs, Hql.
      repeat split; try (simpl; lia). constructor.
Qed.

(** X8: the log of a turn tells what the turn did: a TXD line, with the
    very bytes of the query, exactly when the query was written to the
    serial port, then at most one line for the reply, an RXD one. *)
Theorem turn_logs_what_it_did (sock port : Z) (q : bytes) (w : world) :
  exists evs rxd,
    trace (world_of (main_iteration BUFFER_MAX_LEN sock port q w))
    = trace w ++ evs
    /\ filter is_serial_send evs
       = (if accepted BUFFER_MAX_LEN q then [SerialSend port q] else [])
    /\ log_lines evs
       = (if accepted BUFFER_MAX_LEN q then [lit "TXD: " ++ q] else []) ++ rxd
    /\ (length rxd <= 1)%nat
    /\ Forall (fun l => firstn 3 l = lit "RXD") rxd.
Proof.
  destruct (turn_events sock port q w)
    as (evs & rxd & Htrace & Hsend & _ & Hlog & Hlen & Hrxd).
  exists evs, rxd. repeat split; assumption.
Qed.

(** What the loop does over the requests it gets: it runs the turns of
    the first [k] of them. *)
Lemma loop_events (sock port : Z) (requests : list (option bytes)) (w : world) :
  exists k evs,
    (k <= length (served requests))%nat
    /\ trace (world_of (main_loop BUFFER_MAX_LEN sock port requests w))
       = trace w ++ evs
    /\ filter is_serial_send evs
       = map (SerialSend port)
           (filter (accepted BUFFER_MAX_LEN) (firstn k (served requests)))
    /\ (length (sent_payloads evs) <= k)%nat
    /\ forall w', main_loop BUFFER_MAX_LEN sock port requests w <> Returns tt w'.
Proof.
  revert w. induction requests as [|[q|] later IH]; intros w.
  - exists 0%nat, []. cbn. rewrite app_nil_r.
    repeat split; try reflexivity; try lia. intros w'. discriminate.
  - destruct (turn_events sock port q w)
      as (evs1 & _ & Htrace1 & Hsend1 & Hpay1 & _).
    cbn [main_loop served]. unfold bind.
    destruct (main_iteration BUFFER_MAX_LEN sock port q w) as [[] w1|w1|w1];
      cbn [world_of] in Htrace1.
    + destruct (IH w1) as (k & evs2 & Hk & Htrace2 & Hsend2 & Hpay2 & Hnever).
      exists (S k), (evs1 ++ evs2).
      rewrite Htrace2, Htrace1, <- app_assoc.
      rewrite filter_app, sent_payloads_app, length_app, Hsend1, Hsend2.
      cbn [firstn filter length].
      split; [lia|]. split; [reflexivity|].
      split; [now destruct (accepted BUFFER_MAX_LEN q)|].
      split; [lia | exact Hnever].
    + exists 1%nat, evs1. cbn [world_of firstn filter length].
      rewrite Hsend1. split; [lia|]. split; [exact Htrace1|].
      split; [now destruct (accepted BUFFER_MAX_LEN q)|].
      split; [exact Hpay1 | intros w'; discriminate].
    + exists 1%nat, evs1. cbn [world_of firstn filter length].
      rewrite Hsend1. split; [lia|]. split; [exact Htrace1|].
      split; [now destruct (accepted BUFFER_MAX_LEN q)|].
      split; [exact Hpay1 | intros w'; discriminate].
  - exists 0%nat, [Stderr (lit "recvfrom")]. cbn.
    repeat split; try reflexivity; try lia. intros w'. discriminate.
Qed.

(** X9: the loop forwards to the serial port the client's queries and
    nothing else: what it writes is, in the order of arrival, the queries
    of acceptable length among the first requests, each one whole and
    once. *)
Theorem loop_forwards_queries_in_order (sock port : Z)
    (requests : list (option bytes)) (w : world) :
  exists k evs,
    (k <= length (served requests))%nat
    /\ trace (world_of (main_loop BUFFER_MAX_LEN sock port requests w))
       = trace w ++ evs
    /\ filter is_serial_send evs
       = map (SerialSend port)
           (filter (accepted BUFFER_MAX_LEN) (firstn k (served requests))).
Proof.
  destruct (loop_events sock port requests w)
    as (k & evs & Hk & Htrace & Hsend & _).
  exists k, evs. repeat split; assumption.
Qed.

(** X10: the loop never returns (the call of [close_log_file] after it is
    never reached), and it never sends more datagrams than it has been
    handed requests. *)
Theorem loop_answers_at_most_once (sock port : Z)
    (requests : list (option bytes)) (w : world) :
  (forall w', main_loop BUFFER_MAX_LEN sock port requests w <> Returns tt w')
  /\ exists evs,
       trace (world_of (main_loop BUFFER_MAX_LEN sock port requests w))
       = trace w ++ evs
       /\ (length (sent_payloads evs) <= length (served requests))%nat.
Proof.
  destruct (loop_events sock port requests w)
    as (k & evs & Hk & Htrace & _ & Hpay & Hnever).
  split; [exact Hnever|]. exists evs. split; [exact Htrace | lia].
Qed.

(** X11: a line that never brings a [>] stops the service at the first
    request: the turn polls what there is and waits for ever; the requests
    that follow are not served, whatever they are. *)
Theorem silent_line_stops_the_loop (sock port : Z) (q : bytes)
    (later : list (option bytes)) (w : world) :
  prompted (rx w) = false ->
  main_loop BUFFER_MAX_LEN sock port (Some q :: later) w
  = Blocks
      {| rx := []; net_up := net_up w;
         trace := trace w
           ++ (if accepted BUFFER_MAX_LEN q
               then [SerialSend port q;
                     Stdout (lit "TXD " ++ decimal (strlen q) ++ lit " bytes: "
                             ++ q ++ [LF]);
                     SerialFlushTX port;
                     LogEntry (lit "TXD: " ++ q)]
               else [Stdout (lit "ERROR: Bad message length!" ++ [LF])])
           ++ map (SerialPoll port) (rx w) |}.
Proof.
  intros Hp. cbn [main_loop]. unfold bind.
  destruct (unprompted_polls port (rx w) Hp) as (Hc & Hu & He).
  destruct (accepted BUFFER_MAX_LEN q) eqn:Hacc.
  - apply accepted_spec in Hacc.
    rewrite main_iteration_accepted by exact Hacc. cbv zeta.
    rewrite Hp, Hc, Hu, He. reflexivity.
  - apply rejected_spec in Hacc.
    rewrite main_iteration_rejected by exact Hacc. cbv zeta.
    rewrite Hp, Hc, Hu, He. reflexivity.
Qed.

End Turns.

(** ** A request and its answer, end to end *)

Section RoundTrips.

Variable BUFFER_MAX_LEN : Z.

Lemma plain_printable (l : bytes) :
  Forall plain l -> Forall (fun b => 32 <= code b) l.
Proof.
  apply Forall_impl. intros c H. apply H.
Qed.

Lemma plain_no_prompt (l : bytes) : Forall plain l -> has_prompt l = false.
Proof.
  induction 1 as [|c l (_ & _ & Hc) _ IH]; [reflexivity|].
  unfold has_prompt. cbn [existsb]. fold (has_prompt l). rewrite IH.
  destruct (Ascii.eqb_spec c ">"%char); [contradiction | reflexivity].
Qed.

Lemma plain_no_delim (l : bytes) : Forall plain l -> ~ In "!"%char l.
Proof.
  rewrite Forall_forall. intros H Hin. apply H in Hin.
  destruct Hin as (_ & Hne & _). now apply Hne.
Qed.

Lemma replacechar_plain (l : bytes) :
  Forall plain l -> replacechar l "!"%char " "%char = l.
Proof.
  unfold replacechar.
  induction 1 as [|c l (_ & Hc & _) _ IH]; [reflexivity|].
  cbn [map]. rewrite IH.
  destruct (Ascii.eqb_spec c "!"%char); [contradiction | reflexivity].
Qed.

Lemma fields_app_delim (a b : bytes) :
  ~ In "!"%char a -> fields (a ++ "!"%char :: b) = a :: fields b.
Proof.
  induction a as [|c a IH]; intros Hno; [reflexivity|].
  cbn [app fields].
  destruct (Ascii.eqb_spec c "!"%char) as [->|_]; [exfalso; apply Hno; now left|].
  rewrite IH by (intros H; apply Hno; now right). reflexivity.
Qed.

(** The stream of a two-line answer closed by the prompt, framed. *)
Lemma two_lines_framed (polls : list bytes) (line1 line2 : bytes) :
  concat polls = line1 ++ CR :: line2 ++ [CR; CR; ">"%char] ->
  Forall plain line1 ->
  Forall plain line2 ->
  prompted polls = true
  /\ reply_bytes polls
     = line1 ++ "!"%char :: line2 ++ ["!"%char; "!"%char; ">"%char].
Proof.
  intros Hstream H1 H2.
  assert (Hbody : has_prompt (line1 ++ CR :: line2 ++ [CR; CR]) = false).
  { rewrite has_prompt_app, (plain_no_prompt line1 H1).
    change (CR :: line2 ++ [CR; CR]) with ([CR] ++ line2 ++ [CR; CR]).
    rewrite !has_prompt_app, (plain_no_prompt line2 H2). reflexivity. }
  assert (Hstream' : concat polls
                     = (line1 ++ CR :: line2 ++ [CR; CR]) ++ [">"%char]).
  { rewrite Hstream, <- !app_assoc. cbn [app]. rewrite <- !app_assoc.
    reflexivity. }
  assert (Hp : prompted polls = true).
  { rewrite prompted_concat, Hstream', has_prompt_app, Hbody. reflexivity. }
  split; [exact Hp|].
  pose proof (consumed_has_prompt polls Hp) as Hc.
  pose proof (consumed_unread polls) as Hsplit.
  rewrite Hsplit, concat_app in Hstream'.
  destruct (prompt_closes_stream _ _ _ Hstream' Hbody Hc) as [Hread _].
  unfold reply_bytes. rewrite Hread.
  rewrite <- !app_assoc. cbn [app].
  rewrite flat_map_app, (frame_printable_id line1) by now apply plain_printable.
  cbn [flat_map]. change (frame_byte CR) with ["!"%char]. cbn [app].
  rewrite !flat_map_app, (frame_printable_id line2)
    by now apply plain_printable.
  rewrite <- app_assoc. reflexivity.
Qed.

(** X12: an OBD request, end to end.  The query is of acceptable length
    and its log line fits [log_buf]; the interpreter answers, in any
    chunks, with the echo of the request (it starts with [0]), a carriage
    return, the data line, two carriage returns and the prompt, and the
    reply framed from it fits [ecu_msg].  Then the turn writes the query
    once, logs the TXD line and the data line, and sends the client the
    data line alone. *)
Theorem obd_request_round_trip (sock port : Z) (q echo data : bytes)
    (w : world) :
  1 <= strlen q <= BUFFER_MAX_LEN ->
  fits BUFFER_MAX_LEN (lit "TXD: " ++ q) ->
  fits BUFFER_MAX_LEN (echo ++ "!"%char :: data ++ lit "!!>") ->
  concat (rx w) = echo ++ CR :: data ++ [CR; CR; ">"%char] ->
  Forall plain echo ->
  Forall plain data ->
  nth 0 echo NUL = "0"%char ->
  data <> [] ->
  exists evs,
    trace (world_of (main_iteration BUFFER_MAX_LEN sock port q w))
    = trace w ++ evs
    /\ filter is_serial_send evs = [SerialSend port q]
    /\ log_lines evs = [lit "TXD: " ++ q; lit "RXD: " ++ data]
    /\ sent_payloads evs = [data].
Proof.
  intros Hq _ _ Hstream He Hd Hhd Hne.
  destruct (two_lines_framed (rx w) echo data Hstream He Hd) as [Hp Hreply].
  rewrite main_iteration_accepted by exact Hq. cbv zeta. rewrite Hp, Hreply.
  assert (Hecho : echo <> []) by (intros ->; discriminate Hhd).
  assert (Hhd' : nth 0 (echo ++ "!"%char :: data
                        ++ ["!"%char; "!"%char; ">"%char]) NUL = "0"%char).
  { destruct echo as [|c echo]; [contradiction|]. exact Hhd. }
  assert (Htok : nth_error (tokens (echo ++ "!"%char :: data
                                    ++ ["!"%char; "!"%char; ">"%char])) 1
                 = Some data).
  { unfold tokens.
    rewrite fields_app_delim by now apply plain_no_delim.
    rewrite fields_app_delim by now apply plain_no_delim.
    destruct echo as [|c echo]; [contradiction|].
    destruct data as [|d data]; [contradiction|]. reflexivity. }
  rewrite process_reply_OBD, Htok by exact Hhd'.
  run. rewrite firstn_strlen.
  destruct (poll_events_quiet port (consumed (rx w))) as [Hqs Hql].
  exists ([SerialSend port q;
           Stdout (lit "TXD " ++ decimal (strlen q) ++ lit " bytes: "
                   ++ q ++ [LF]);
           SerialFlushTX port; LogEntry (lit "TXD: " ++ q)]
          ++ poll_events port (consumed (rx w))
          ++ [SerialFlushRX port; LogEntry (lit "RXD: " ++ data);
              Sendto sock data]
          ++ (if net_up w then [] else [Stderr (lit "sendto")])).
  split.
  - destruct (net_up w).
    + destruct (Z.ltb_spec (strlen data) 0) as [H|_];
        [unfold strlen in H; lia|].
      cbn [world_of trace]. rewrite <- ?app_assoc. cbn [app].
      rewrite <- ?app_assoc. reflexivity.
    + cbn [Z.ltb Z.compare world_of trace]. rewrite <- ?app_assoc. cbn [app].
      rewrite <- ?app_assoc. reflexivity.
  - rewrite !filter_app, !sent_payloads_app, !log_lines_app.
    rewrite polls_are_not_sends, Hqs, Hql.
    now destruct (net_up w).
Qed.

(** X13: an AT command, end to end.  The query is of acceptable length
    and its log line fits [log_buf]; the interpreter answers, in any
    chunks, with the echo of the command (it starts with [A]), a carriage
    return, the answer line, two carriage returns and the prompt, and the
    log line of the reply fits [log_buf] (the reply then fits [ecu_msg]).
    Then the client is sent echo and answer on one line, a space between
    them and two spaces and the prompt after them. *)
Theorem at_command_round_trip (sock port : Z) (q echo answer : bytes)
    (w : world) :
  1 <= strlen q <= BUFFER_MAX_LEN ->
  fits BUFFER_MAX_LEN (lit "TXD: " ++ q) ->
  fits BUFFER_MAX_LEN
    (lit "RXD: " ++ echo ++ "!"%char :: answer ++ lit "!!>") ->
  concat (rx w) = echo ++ CR :: answer ++ [CR; CR; ">"%char] ->
  Forall plain echo ->
  Forall plain answer ->
  nth 0 echo NUL = "A"%char ->
  exists evs,
    trace (world_of (main_iteration BUFFER_MAX_LEN sock port q w))
    = trace w ++ evs
    /\ filter is_serial_send evs = [SerialSend port q]
    /\ log_lines evs
       = [lit "TXD: " ++ q;
          lit "RXD: " ++ echo ++ " "%char :: answer ++ lit "  >"]
    /\ sent_payloads evs = [echo ++ " "%char :: answer ++ lit "  >"].
Proof.
  intros Hq _ _ Hstream He Ha Hhd.
  destruct (two_lines_framed (rx w) echo answer Hstream He Ha) as [Hp Hreply].
  rewrite main_iteration_accepted by exact Hq. cbv zeta. rewrite Hp, Hreply.
  assert (Hhd' : nth 0 (echo ++ "!"%char :: answer
                        ++ ["!"%char; "!"%char; ">"%char]) NUL = "A"%char).
  { destruct echo as [|c echo]; [discriminate Hhd | exact Hhd]. }
  assert (Hrep : replacechar (echo ++ "!"%char :: answer
                              ++ ["!"%char; "!"%char; ">"%char])
                   "!"%char " "%char
                 = echo ++ " "%char :: answer ++ lit "  >").
  { unfold replacechar. rewrite map_app. cbn [map]. rewrite map_app.
    fold (replacechar echo "!"%char " "%char).
    fold (replacechar answer "!"%char " "%char).
    rewrite !replacechar_plain by assumption. reflexivity. }
  match goal with
  | |- context [process_reply ?s (strlen ?r) ?r ?w1] =>
      pose proof (process_reply_AT s r w1 Hhd') as Htrace
  end.
  rewrite Hrep in Htrace. rewrite Htrace.
  unfold add_events, with_rx. cbn [trace net_up]. rewrite <- !app_assoc.
  destruct (poll_events_quiet port (consumed (rx w))) as [Hqs Hql].
  eexists. split; [reflexivity|].
  rewrite !filter_app, !sent_payloads_app, !log_lines_app.
  rewrite polls_are_not_sends, Hqs, Hql.
  now destruct (net_up w).
Qed.

End RoundTrips.

(** ** The start-up check *)

Section StartUp.

Variable BUFFER_MAX_LEN : Z.

Lemma interface_check_steps (port : Z) (w : world) :
  interface_check BUFFER_MAX_LEN port w
  = check_steps BUFFER_MAX_LEN port check_plan memset_256 w.
Proof.
  reflexivity.
Qed.

Lemma prompts_unread (polls : list bytes) :
  prompted polls = true -> prompts polls = S (prompts (unread polls)).
Proof.
  unfold prompts.
  induction polls as [|chunk later IH]; cbn [prompted existsb filter unread];
    [discriminate|].
  destruct (has_prompt chunk); cbn [orb length]; [reflexivity | exact IH].
Qed.

Lemma prompts_none (polls : list bytes) :
  prompted polls = false -> prompts polls = 0%nat.
Proof.
  unfold prompts.
  induction polls as [|chunk later IH]; cbn [prompted existsb filter];
    [reflexivity|].
  destruct (has_prompt chunk); cbn [orb]; [discriminate | exact IH].
Qed.

(** [send_ecu_query] in closed form. *)
Lemma send_ecu_query_eq (port : Z) (q : bytes) (w : world) :
  send_ecu_query BUFFER_MAX_LEN port q w
  = Returns (if accepted BUFFER_MAX_LEN q then strlen q else 0)
      (add_events
         (if accepted BUFFER_MAX_LEN q
          then [SerialSend port q;
                Stdout (lit "TXD " ++ decimal (strlen q) ++ lit " bytes: "
                        ++ q ++ [LF]);
                SerialFlushTX port]
          else [Stdout (lit "ERROR: Bad message length!" ++ [LF])]) w).
Proof.
  destruct (accepted BUFFER_MAX_LEN q) eqn:Hacc.
  - apply accepted_spec in Hacc. now apply send_ecu_query_accepts.
  - apply rejected_spec in Hacc. unfold send_ecu_query. cbv zeta.
    replace ((strlen q <? 1) || (BUFFER_MAX_LEN <? strlen q)) with true.
    2:{ symmetry. apply orb_true_iff.
        destruct Hacc as [H|H]; [left|right]; apply Z.ltb_lt; lia. }
    reflexivity.
Qed.

(** One exchange in closed form. *)
Lemma check_step_eq (port : Z) (label q : bytes) (mem : list (Z * ascii))
    (w : world) :
  check_step BUFFER_MAX_LEN port label q mem w
  = let sent := if accepted BUFFER_MAX_LEN q
                then [SerialSend port q;
                      Stdout (lit "TXD " ++ decimal (strlen q) ++ lit " bytes: "
                              ++ q ++ [LF]);
                      SerialFlushTX port]
                else [Stdout (lit "ERROR: Bad message length!" ++ [LF])] in
    let recv_msg := mem ++ number_from 0 (reply_bytes (rx w)) in
    if prompted (rx w)
    then Returns (recv_msg ++ memset_256)
           (add_events
              (sent ++ poll_events port (consumed (rx w))
               ++ [SerialFlushRX port;
                   Stdout (label ++ lit ": " ++ string_of recv_msg ++ [LF]);
                   LogEntry (string_of recv_msg)])
              (with_rx (unread (rx w)) w))
    else Blocks (add_events (sent ++ poll_events port (consumed (rx w)))
                            (with_rx (unread (rx w)) w)).
Proof.
  unfold check_step. unfold bind at 1. rewrite send_ecu_query_eq.
  unfold bind at 1. rewrite recv_ecu_reply_eq. cbv zeta.
  destruct w as [r n t]. unfold add_events, with_rx. cbn [rx net_up trace].
  destruct (prompted r).
  - run. rewrite <- !app_assoc. reflexivity.
  - rewrite <- !app_assoc. reflexivity.
Qed.




Lemma find_app_first {A : Type} (f : A -> bool) (x y : list A) :
  find f (x ++ y) = match find f x with Some v => Some v | None => find f y end.
Proof.
  induction x as [|a x IH]; [reflexivity|].
  cbn [app find]. now destruct (f a).
Qed.

(** A later store hides an earlier one. *)
Lemma load_app (a b : list (Z * ascii)) (i : Z) :
  load (a ++ b) i
  = match find (fun s => fst s =? i) (rev b) with
    | Some (_, c) => c
    | None => load a i
    end.
Proof.
  unfold load. rewrite rev_app_distr, find_app_first.
  now destruct (find (fun s => fst s =? i) (rev b)) as [[j c]|].
Qed.

Lemma find_number_from (out : bytes) (i j : Z) :
  find (fun s => fst s =? j) (rev (number_from i out))
  = if (i <=? j) && (j <? i + strlen out)
    then Some (j, nth (Z.to_nat (j - i)) out NUL)
    else None.
Proof.
  induction out as [|c out IH] using rev_ind.
  - cbn [number_from rev find]. change (strlen []) with 0.
    destruct (Z.leb_spec i j), (Z.ltb_spec j (i + 0)); cbn [andb];
      try reflexivity; lia.
  - rewrite number_from_app. cbn [number_from]. rewrite rev_unit.
    cbn [find fst]. rewrite IH, strlen_app, strlen_cons.
    change (strlen []) with 0.
    assert (Hlen : strlen out = Z.of_nat (length out)) by reflexivity.
    destruct (Z.eqb_spec (i + strlen out) j) as [Hk|Hk];
      destruct (Z.leb_spec i j) as [Hlo|Hlo];
      destruct (Z.ltb_spec j (i + strlen out)) as [Hhi|Hhi];
      destruct (Z.ltb_spec j (i + (strlen out + (1 + 0)))) as [Hhi'|Hhi'];
      cbn [andb]; try lia; try reflexivity.
    + replace (Z.to_nat (j - i)) with (length out) by lia.
      rewrite nth_middle. now subst j.
    + rewrite app_nth1 by lia. reflexivity.
Qed.

Lemma nth_repeat_NUL (k n : nat) : nth k (repeat NUL n) NUL = NUL.
Proof.
  revert k. induction n as [|n IH]; intros [|k]; cbn; auto.
Qed.

(** After [memset], a reply of less than 256 bytes reads back as it was
    stored, whatever the array held before. *)
Lemma string_after_memset (old : list (Z * ascii)) (reply : bytes) :
  Forall (fun b => 32 <= code b) reply ->
  strlen reply < 256 ->
  string_of ((old ++ memset_256) ++ number_from 0 reply) = reply.
Proof.
  intros Hprint Hshort.
  assert (Hload : forall k : nat, (k <= length reply)%nat ->
            load ((old ++ memset_256) ++ number_from 0 reply) (Z.of_nat k)
            = nth k reply NUL).
  { intros k Hk. rewrite load_app, find_number_from. unfold strlen in *.
    destruct (Z.leb_spec 0 (Z.of_nat k)) as [_|H]; [|lia].
    destruct (Z.ltb_spec (Z.of_nat k) (0 + Z.of_nat (length reply))) as [H|H];
      cbn [andb].
    - f_equal. lia.
    - rewrite load_app. unfold memset_256. rewrite find_number_from.
      unfold strlen. rewrite repeat_length.
      destruct (Z.leb_spec 0 (Z.of_nat k)) as [_|H']; [|lia].
      destruct (Z.ltb_spec (Z.of_nat k) (0 + Z.of_nat 256)) as [_|H']; [|lia].
      cbn [andb]. rewrite nth_repeat_NUL.
      rewrite nth_overflow by lia. reflexivity. }
  assert (Hrun : forall (fuel k : nat),
            (k <= length reply)%nat -> (length reply - k <= fuel)%nat ->
            c_string ((old ++ memset_256) ++ number_from 0 reply) fuel
              (Z.of_nat k) = skipn k reply).
  { induction fuel as [|fuel IH]; intros k Hk Hfuel.
    - cbn [c_string]. replace k with (length reply) by lia.
      now rewrite skipn_all.
    - cbn [c_string]. rewrite Hload by exact Hk.
      destruct (Nat.eq_dec k (length reply)) as [->|Hne].
      + rewrite nth_overflow by lia. cbn. now rewrite skipn_all.
      + rewrite printable_not_NUL.
        * replace (Z.of_nat k + 1) with (Z.of_nat (S k)) by lia.
          rewrite IH by lia. symmetry. apply skipn_nth. lia.
        * rewrite Forall_forall in Hprint. apply Hprint, nth_In. lia. }
  unfold string_of.
  apply (Hrun (length ((old ++ memset_256) ++ number_from 0 reply)) 0%nat);
    [lia|].
  rewrite length_app, length_number_from. lia.
Qed.

Lemma replies_from_prompted (acc : bytes) (polls : list bytes) :
  prompted polls = true ->
  replies_from acc polls
  = flat_map frame_byte (acc ++ concat (consumed polls))
    :: replies_from [] (unread polls).
Proof.
  revert acc. induction polls as [|chunk later IH]; intros acc;
    cbn [prompted existsb replies_from consumed unread]; [discriminate|].
  destruct (has_prompt chunk); cbn [orb concat]; intros H.
  - now rewrite app_nil_r.
  - rewrite IH by exact H. now rewrite <- app_assoc.
Qed.

(** A run of exchanges logs the replies as framed, one line each, as long
    as each is under 256 bytes. *)
Lemma check_steps_log (port : Z) (plan : list (bytes * bytes)) :
  forall (old : list (Z * ascii)) (w : world),
    (length plan <= prompts (rx w))%nat ->
    Forall (fun r => strlen r < 256) (firstn (length plan) (replies (rx w))) ->
    exists w' evs,
      check_steps BUFFER_MAX_LEN port plan (old ++ memset_256) w = Returns tt w'
      /\ trace w' = trace w ++ evs
      /\ log_lines evs = firstn (length plan) (replies (rx w)).
Proof.
  induction plan as [|[label q] later IH]; intros old w Hprompts Hshort.
  - exists w, []. cbn. now rewrite app_nil_r.
  - cbn [length] in Hprompts, Hshort.
    assert (Hp : prompted (rx w) = true).
    { destruct (prompted (rx w)) eqn:E; [reflexivity|].
      rewrite (prompts_none (rx w) E) in Hprompts. lia. }
    rewrite (prompts_unread (rx w) Hp) in Hprompts.
    unfold replies in *. rewrite (replies_from_prompted [] (rx w) Hp) in *.
    cbn [app firstn] in *. fold (reply_bytes (rx w)) in *.
    inversion Hshort as [|r rs Hr Hrest]; subst.
    cbn [check_steps length firstn]. unfold bind.
    rewrite check_step_eq. cbv zeta. rewrite Hp.
    rewrite (string_after_memset old (reply_bytes (rx w)))
      by (apply reply_printable || exact Hr).
    match goal with
    | |- context [check_steps _ _ _ (?m ++ memset_256) ?w1] =>
        destruct (IH m w1) as (w' & evs2 & Hsteps & Htrace & Hlog)
    end.
    + unfold add_events, with_rx. cbn [rx]. lia.
    + unfold add_events, with_rx. cbn [rx]. exact Hrest.
    + rewrite Hsteps. unfold add_events, with_rx in Htrace, Hlog.
      cbn [rx trace] in Htrace, Hlog.
      destruct (poll_events_quiet port (consumed (rx w))) as [_ Hql].
      eexists. eexists. split; [reflexivity|].
      split; [rewrite Htrace, <- app_assoc; reflexivity|].
      rewrite !log_lines_app, Hql, Hlog.
      now destruct (accepted BUFFER_MAX_LEN q).
Qed.

(** X15: when ten polls bring a [>] and each of the ten replies is under
    256 bytes, the log of [interface_check] is these ten replies, as
    framed, in order, one line each; what the array held before each
    [memset] does not show. *)
Theorem interface_check_logs_the_replies (port : Z) (w : world) :
  (10 <= prompts (rx w))%nat ->
  Forall (fun r => strlen r < 256) (firstn 10 (replies (rx w))) ->
  exists w' evs,
    interface_check BUFFER_MAX_LEN port w = Returns tt w'
    /\ trace w' = trace w ++ evs
    /\ log_lines evs = firstn 10 (replies (rx w)).
Proof.
  intros Hprompts Hshort. rewrite interface_check_steps.
  exact (check_steps_log port check_plan [] w Hprompts Hshort).
Qed.

End StartUp.

(** ** Failure of the socket *)

Section SocketFailure.

(** X16: handling a reply that fits the arrays (the longest line [main]
    may log for it fits [log_buf]) never blocks, and it ends the process
    in one case only: a datagram was handed to sendto and sendto failed.
    The line for the reply is in the log by then, and the message for the
    failure is the last thing written. *)
Theorem reply_handling_exits_only_on_failed_sendto (BUFFER_MAX_LEN sock : Z)
    (r : bytes) (w : world) :
  fits BUFFER_MAX_LEN (lit "RXD Unknown ECU Message: " ++ r) ->
  match process_reply sock (strlen r) r w with
  | Returns _ w' =>
      net_up w = true \/ sent_payloads (trace w') = sent_payloads (trace w)
  | Exits w' =>
      net_up w = false
      /\ exists p,
           trace w' = trace w ++ [LogEntry (lit "RXD: " ++ p); Sendto sock p;
                                  Stderr (lit "sendto")]
  | Blocks _ => False
  end.
Proof.
  intros _.
  assert (Hlen : forall s : bytes, (strlen s <? 0) = false)
    by (intros s; apply Z.ltb_ge; unfold strlen; lia).
  destruct (Ascii.eqb_spec (nth 0 r NUL) "A"%char) as [HA|HA].
  - assert (Hcut : firstn (Z.to_nat (strlen r))
                            (replacechar r "!"%char " "%char)
                   = replacechar r "!"%char " "%char).
    { replace (strlen r) with (strlen (replacechar r "!"%char " "%char))
        by (unfold strlen, replacechar; now rewrite length_map).
      apply firstn_strlen. }
    unfold process_reply. rewrite HA. cbn [Ascii.eqb Bool.eqb]. run.
    rewrite Hcut. destruct (net_up w).
    + rewrite Hlen. now left.
    + cbn [Z.ltb Z.compare trace]. split; [reflexivity|].
      exists (replacechar r "!"%char " "%char). now rewrite <- !app_assoc.
  - destruct (Ascii.eqb_spec (nth 0 r NUL) "0"%char) as [H0|H0].
    + rewrite process_reply_OBD by exact H0.
      destruct (nth_error (tokens r) 1) as [t|]; [|now right].
      run. rewrite firstn_strlen. destruct (net_up w).
      * rewrite Hlen. now left.
      * cbn [Z.ltb Z.compare trace]. split; [reflexivity|].
        exists t. now rewrite <- !app_assoc.
    + unfold process_reply.
      destruct (Ascii.eqb_spec (nth 0 r NUL) "A"%char) as [E|_];
        [contradiction|].
      destruct (Ascii.eqb_spec (nth 0 r NUL) "0"%char) as [E|_];
        [contradiction|].
      right. run. rewrite sent_payloads_app. cbn. apply app_nil_r.
Qed.

End SocketFailure.

(** ** Instances of the further properties *)

Ltac plain_bytes :=
  repeat first
    [ apply Forall_nil
    | apply Forall_cons; [repeat split; vm_compute; discriminate|] ].

Lemma reply_within_bytes_read_witness :
  recv_ecu_reply 0 (world_with [lit "41 00"; [CR; LF] ++ lit ">"; lit "late"])
  = Returns (7, number_from 0 (lit "41 00!>"))
      {| rx := [lit "late"]; net_up := true;
         trace := [SerialPoll 0 (lit "41 00"); SerialPoll 0 ([CR; LF] ++ lit ">");
                   Stdout (lit "RXD > Interpreter Ready" ++ [LF]);
                   SerialFlushRX 0] |}
  /\ exists polled,
       [lit "41 00"; [CR; LF] ++ lit ">"; lit "late"] = polled ++ [lit "late"]
       /\ 7 <= strlen (concat polled)
       /\ Forall (fun s => 0 <= fst s < strlen (concat polled))
            (number_from 0 (lit "41 00!>")).
Proof.
  split; [reflexivity|].
  apply (reply_within_bytes_read 0
           (world_with [lit "41 00"; [CR; LF] ++ lit ">"; lit "late"])
           7 (number_from 0 (lit "41 00!>"))
           {| rx := [lit "late"]; net_up := true;
              trace := [SerialPoll 0 (lit "41 00");
                        SerialPoll 0 ([CR; LF] ++ lit ">");
                        Stdout (lit "RXD > Interpreter Ready" ++ [LF]);
                        SerialFlushRX 0] |}).
  reflexivity.
Defined.

Lemma reply_independent_of_chunking_witness :
  concat [lit "41"; []; lit " 00" ++ [CR]; lit ">"; []]
  = (lit "41 00" ++ [CR]) ++ [">"%char]
  /\ has_prompt (lit "41 00" ++ [CR]) = false
  /\ exists w',
       recv_ecu_reply 0 (world_with [lit "41"; []; lit " 00" ++ [CR]; lit ">"; []])
       = Returns (strlen (flat_map frame_byte (lit "41 00" ++ [CR])) + 1,
                  number_from 0
                    (flat_map frame_byte (lit "41 00" ++ [CR]) ++ [">"%char])) w'
       /\ concat (rx w') = [].
Proof.
  split; [reflexivity|]. split; [reflexivity|].
  apply (reply_independent_of_chunking 0
           (world_with [lit "41"; []; lit " 00" ++ [CR]; lit ">"; []])
           (lit "41 00" ++ [CR])); reflexivity.
Defined.

Lemma framing_is_idempotent_witness :
  recv_ecu_reply 0 (world_with [lit "41 00"; [CR; LF] ++ lit ">"; lit "late"])
  = Returns (7, number_from 0 (lit "41 00!>"))
      {| rx := [lit "late"]; net_up := true;
         trace := [SerialPoll 0 (lit "41 00"); SerialPoll 0 ([CR; LF] ++ lit ">");
                   Stdout (lit "RXD > Interpreter Ready" ++ [LF]);
                   SerialFlushRX 0] |}
  /\ forall (port' : Z) (net : bool) (tr : list event),
       exists w'',
         recv_ecu_reply port'
           {| rx := [map snd (number_from 0 (lit "41 00!>"))];
              net_up := net; trace := tr |}
         = Returns (7, number_from 0 (lit "41 00!>")) w''.
Proof.
  split; [reflexivity|].
  apply (framing_is_idempotent 0
           (world_with [lit "41 00"; [CR; LF] ++ lit ">"; lit "late"])
           7 (number_from 0 (lit "41 00!>"))
           {| rx := [lit "late"]; net_up := true;
              trace := [SerialPoll 0 (lit "41 00");
                        SerialPoll 0 ([CR; LF] ++ lit ">");
                        Stdout (lit "RXD > Interpreter Ready" ++ [LF]);
                        SerialFlushRX 0] |}).
  reflexivity.
Defined.

Lemma no_prompt_no_return_witness :
  prompted (rx (world_with [lit "SEARCHING..."; []; [CR]])) = false
  /\ recv_ecu_reply 0 (world_with [lit "SEARCHING..."; []; [CR]])
     = Blocks {| rx := []; net_up := true;
                 trace := [] ++ map (SerialPoll 0) [lit "SEARCHING..."; []; [CR]] |}.
Proof.
  split; [reflexivity|].
  apply (no_prompt_no_return 0 (world_with [lit "SEARCHING..."; []; [CR]])).
  reflexivity.
Defined.

Lemma unknown_reply_is_only_logged_witness :
  nth 0 (lit "?!>") NUL <> "A"%char
  /\ nth 0 (lit "?!>") NUL <> "0"%char
  /\ fits 256 (lit "RXD Unknown ECU Message: " ++ lit "?!>")
  /\ process_reply 3 3 (lit "?!>") (world_with [])
     = Returns tt
         (record_event (LogEntry (lit "RXD Unknown ECU Message: " ++ lit "?!>"))
                       (world_with [])).
Proof.
  split; [discriminate|]. split; [discriminate|]. split; [reflexivity|].
  apply (unknown_reply_is_only_logged 256 3 3 (lit "?!>") (world_with []));
    [discriminate | discriminate | reflexivity].
Defined.

Lemma silent_line_stops_the_loop_witness :
  prompted (rx (world_with [lit "NO DATA"; []])) = false
  /\ main_loop 256 3 0 [Some (lit "0100" ++ [CR]); Some (lit "ATRV" ++ [CR]); None]
       (world_with [lit "NO DATA"; []])
     = Blocks
         {| rx := []; net_up := true;
            trace := []
              ++ (if accepted 256 (lit "0100" ++ [CR])
                  then [SerialSend 0 (lit "0100" ++ [CR]);
                        Stdout (lit "TXD "
                                ++ decimal (strlen (lit "0100" ++ [CR]))
                                ++ lit " bytes: " ++ (lit "0100" ++ [CR]) ++ [LF]);
                        SerialFlushTX 0;
                        LogEntry (lit "TXD: " ++ (lit "0100" ++ [CR]))]
                  else [Stdout (lit "ERROR: Bad message length!" ++ [LF])])
              ++ map (SerialPoll 0) [lit "NO DATA"; []] |}.
Proof.
  split; [reflexivity|].
  apply (silent_line_stops_the_loop 256 3 0 (lit "0100" ++ [CR])
           [Some (lit "ATRV" ++ [CR]); None] (world_with [lit "NO DATA"; []])).
  reflexivity.
Defined.

Lemma obd_request_round_trip_witness :
  1 <= strlen (lit "0100" ++ [CR]) <= 256
  /\ fits 256 (lit "TXD: " ++ lit "0100" ++ [CR])
  /\ fits 256 (lit "0100" ++ "!"%char :: lit "41 00 BE 3E A1 13" ++ lit "!!>")
  /\ concat [lit "0100" ++ [CR] ++ lit "41 00 BE"; lit " 3E A1 13" ++ [CR];
             [CR] ++ lit ">"]
     = lit "0100" ++ CR :: lit "41 00 BE 3E A1 13" ++ [CR; CR; ">"%char]
  /\ Forall plain (lit "0100")
  /\ Forall plain (lit "41 00 BE 3E A1 13")
  /\ nth 0 (lit "0100") NUL = "0"%char
  /\ lit "41 00 BE 3E A1 13" <> []
  /\ exists evs,
       trace (world_of
                (main_iteration 256 3 0 (lit "0100" ++ [CR])
                   (world_with [lit "0100" ++ [CR] ++ lit "41 00 BE";
                                lit " 3E A1 13" ++ [CR]; [CR] ++ lit ">"])))
       = [] ++ evs
       /\ filter is_serial_send evs = [SerialSend 0 (lit "0100" ++ [CR])]
       /\ log_lines evs = [lit "TXD: " ++ (lit "0100" ++ [CR]);
                           lit "RXD: " ++ lit "41 00 BE 3E A1 13"]
       /\ sent_payloads evs = [lit "41 00 BE 3E A1 13"].
Proof.
  split; [vm_compute; split; discriminate|].
  split; [reflexivity|]. split; [reflexivity|].
  split; [reflexivity|].
  split; [unfold lit; cbn [list_ascii_of_string]; plain_bytes|].
  split; [unfold lit; cbn [list_ascii_of_string]; plain_bytes|].
  split; [reflexivity|]. split; [discriminate|].
  apply (obd_request_round_trip 256 3 0 (lit "0100" ++ [CR]) (lit "0100")
           (lit "41 00 BE 3E A1 13")
           (world_with [lit "0100" ++ [CR] ++ lit "41 00 BE";
                        lit " 3E A1 13" ++ [CR]; [CR] ++ lit ">"])).
  - vm_compute; split; discriminate.
  - reflexivity.
  - reflexivity.
  - reflexivity.
  - unfold lit; cbn [list_ascii_of_string]; plain_bytes.
  - unfold lit; cbn [list_ascii_of_string]; plain_bytes.
  - reflexivity.
  - discriminate.
Defined.

Lemma at_command_round_trip_witness :
  1 <= strlen (lit "ATRV" ++ [CR]) <= 256
  /\ fits 256 (lit "TXD: " ++ lit "ATRV" ++ [CR])
  /\ fits 256 (lit "RXD: " ++ lit "ATRV" ++ "!"%char :: lit "12.3V" ++ lit "!!>")
  /\ concat [lit "ATRV" ++ [CR] ++ lit "12"; lit ".3V" ++ [CR; CR] ++ lit ">"]
     = lit "ATRV" ++ CR :: lit "12.3V" ++ [CR; CR; ">"%char]
  /\ Forall plain (lit "ATRV")
  /\ Forall plain (lit "12.3V")
  /\ nth 0 (lit "ATRV") NUL = "A"%char
  /\ exists evs,
       trace (world_of
                (main_iteration 256 3 0 (lit "ATRV" ++ [CR])
                   (world_with [lit "ATRV" ++ [CR] ++ lit "12";
                                lit ".3V" ++ [CR; CR] ++ lit ">"])))
       = [] ++ evs
       /\ filter is_serial_send evs = [SerialSend 0 (lit "ATRV" ++ [CR])]
       /\ log_lines evs
          = [lit "TXD: " ++ (lit "ATRV" ++ [CR]);
             lit "RXD: " ++ lit "ATRV" ++ " "%char :: lit "12.3V" ++ lit "  >"]
       /\ sent_payloads evs
          = [lit "ATRV" ++ " "%char :: lit "12.3V" ++ lit "  >"].
Proof.
  split; [vm_compute; split; discriminate|].
  split; [reflexivity|]. split; [reflexivity|].
  split; [reflexivity|].
  split; [unfold lit; cbn [list_ascii_of_string]; plain_bytes|].
  split; [unfold lit; cbn [list_ascii_of_string]; plain_bytes|].
  split; [reflexivity|].
  apply (at_command_round_trip 256 3 0 (lit "ATRV" ++ [CR]) (lit "ATRV")
           (lit "12.3V")
           (world_with [lit "ATRV" ++ [CR] ++ lit "12";
                        lit ".3V" ++ [CR; CR] ++ lit ">"])).
  - vm_compute; split; discriminate.
  - reflexivity.
  - reflexivity.
  - reflexivity.
  - unfold lit; cbn [list_ascii_of_string]; plain_bytes.
  - unfold lit; cbn [list_ascii_of_string]; plain_bytes.
  - reflexivity.
Defined.

Lemma interface_check_logs_the_replies_witness :
  (10 <= prompts (rx (world_with (repeat (lit "OK" ++ [CR] ++ lit ">") 10))))%nat
  /\ Forall (fun r => strlen r < 256)
       (firstn 10 (replies (rx (world_with (repeat (lit "OK" ++ [CR] ++ lit ">") 10)))))
  /\ exists w' evs,
       interface_check 256 0 (world_with (repeat (lit "OK" ++ [CR] ++ lit ">") 10))
       = Returns tt w'
       /\ trace w' = [] ++ evs
       /\ log_lines evs
          = firstn 10 (replies (rx (world_with (repeat (lit "OK" ++ [CR] ++ lit ">") 10)))).
Proof.
  split; [apply Nat.leb_le; reflexivity|].
  split; [vm_compute; repeat constructor|].
  apply (interface_check_logs_the_replies 256 0
           (world_with (repeat (lit "OK" ++ [CR] ++ lit ">") 10))).
  - apply Nat.leb_le; reflexivity.
  - vm_compute; repeat constructor.
Defined.

Lemma send_result_tells_whether_written_witness :
  strlen (lit "0100" ++ [CR]) <= INT_MAX
  /\ exists n w',
       send_ecu_query 256 0 (lit "0100" ++ [CR]) (world_with []) = Returns n w'
       /\ n = (if accepted 256 (lit "0100" ++ [CR])
               then strlen (lit "0100" ++ [CR]) else 0)
       /\ (0 < n <-> accepted 256 (lit "0100" ++ [CR]) = true)
       /\ filter is_serial (trace w')
          = filter is_serial (trace (world_with []))
            ++ (if accepted 256 (lit "0100" ++ [CR])
                then [SerialSend 0 (lit "0100" ++ [CR]); SerialFlushTX 0]
                else [])
       /\ rx w' = rx (world_with [])
       /\ net_up w' = net_up (world_with []).
Proof.
  split; [vm_compute; discriminate|].
  apply (send_result_tells_whether_written 256 0 (lit "0100" ++ [CR])
           (world_with [])).
  vm_compute; discriminate.
Defined.

Lemma at_most_one_clean_datagram_witness :
  fits 256 (lit "RXD Unknown ECU Message: " ++ lit "0100!41 00 BE 3E A1 13!!>")
  /\ exists ps,
       sent_payloads
         (trace (world_of
                   (process_reply 3 (strlen (lit "0100!41 00 BE 3E A1 13!!>"))
                      (lit "0100!41 00 BE 3E A1 13!!>") (world_with []))))
       = sent_payloads (trace (world_with [])) ++ ps
       /\ (length ps <= 1)%nat
       /\ Forall (fun p => p <> [] /\ ~ In "!"%char p
                           /\ forall c, In c p ->
                                c = " "%char
                                \/ In c (lit "0100!41 00 BE 3E A1 13!!>")) ps.
Proof.
  split; [reflexivity|].
  apply (at_most_one_clean_datagram 256 3 (lit "0100!41 00 BE 3E A1 13!!>")
           (world_with [])).
  reflexivity.
Defined.

Lemma reply_handling_exits_only_on_failed_sendto_witness :
  fits 256 (lit "RXD Unknown ECU Message: " ++ lit "ATRV!12.3V!!>")
  /\ match process_reply 3 (strlen (lit "ATRV!12.3V!!>")) (lit "ATRV!12.3V!!>")
             {| rx := []; net_up := false; trace := [] |} with
     | Returns _ w' =>
         false = true
         \/ sent_payloads (trace w') = sent_payloads []
     | Exits w' =>
         false = false
         /\ exists p,
              trace w' = [] ++ [LogEntry (lit "RXD: " ++ p); Sendto 3 p;
                                Stderr (lit "sendto")]
     | Blocks _ => False
     end.
Proof.
  split; [reflexivity|].
  apply (reply_handling_exits_only_on_failed_sendto 256 3
           (lit "ATRV!12.3V!!>") {| rx := []; net_up := false; trace := [] |}).
  reflexivity.
Defined.
